(** * APP de guardias: the timesheet store, the month grid and the master import

    A shallow embedding of [src/db.py], [src/app.py] and [src/excel_io.py].

    - Python [str] values are Rocq strings holding the UTF-8 bytes.
    - Python [float] values are binary64 floats ([PrimFloat.float]).
    - The three SQL tables are ordered lists of rows; the surrogate [id]
      column is left out, no function of the program reads it.  Both
      backends (sqlite, postgres) run the same statements, so one model
      serves for both.
    - A raised exception is the [Raise] case of [result]. *)

From Stdlib Require Import List String Ascii Bool Arith ZArith NArith Lia.
From Stdlib Require Import DecimalString.
From Stdlib Require Import Floats.
From Stdlib Require Import Sorted.
Import ListNotations.

Local Open Scope string_scope.
Local Open Scope list_scope.

Set Implicit Arguments.

(* ------------------------------------------------------------------ *)
(** ** Exceptions *)

Inductive exn : Type :=
| ValueError (msg : string)
| IllegalMonthError (month : Z)
| YearOutOfRange (year : Z).

Inductive result (A : Type) : Type :=
| Ok (a : A)
| Raise (e : exn).

Arguments Ok {A} a.
Arguments Raise {A} e.

Definition bind {A B : Type} (r : result A) (k : A -> result B) : result B :=
  match r with
  | Ok a => k a
  | Raise e => Raise e
  end.

Notation "x <- r ;; k" := (bind r (fun x => k))
  (at level 61, r at next level, right associativity).

(* ------------------------------------------------------------------ *)
(** ** Python builtins the program calls *)

Module Py.

(** [str.strip()] removes the code points Python counts as whitespace from
    both ends.  On UTF-8 bytes these are the one-byte code points
    U+0009..U+000D, U+001C..U+0020, the two-byte U+0085 and U+00A0 and the
    three-byte U+1680, U+2000..U+200A, U+2028, U+2029, U+202F, U+205F and
    U+3000. *)

Definition sp1 (c : ascii) : bool :=
  let b := N_of_ascii c in
  ((9 <=? b) && (b <=? 13) || (28 <=? b) && (b <=? 32))%N.

Definition sp2 (c1 c2 : ascii) : bool :=
  let b1 := N_of_ascii c1 in
  let b2 := N_of_ascii c2 in
  ((b1 =? 194) && ((b2 =? 133) || (b2 =? 160)))%N.

Definition sp3 (c1 c2 c3 : ascii) : bool :=
  let b1 := N_of_ascii c1 in
  let b2 := N_of_ascii c2 in
  let b3 := N_of_ascii c3 in
  ((b1 =? 225) && (b2 =? 154) && (b3 =? 128)
   || (b1 =? 226) && (b2 =? 128)
      && ((128 <=? b3) && (b3 <=? 138) || (b3 =? 168) || (b3 =? 169) || (b3 =? 175))
   || (b1 =? 226) && (b2 =? 129) && (b3 =? 159)
   || (b1 =? 227) && (b2 =? 128) && (b3 =? 128))%N.

(** Drops whitespace code points from the front of a byte list; [p1], [p2]
    and [p3] recognise a code point of one, two and three bytes. *)
Fixpoint drop_front (p1 : ascii -> bool) (p2 : ascii -> ascii -> bool)
  (p3 : ascii -> ascii -> ascii -> bool) (l : list ascii) : list ascii :=
  match l with
  | [] => []
  | c1 :: t1 =>
    if p1 c1 then drop_front p1 p2 p3 t1
    else match t1 with
         | [] => l
         | c2 :: t2 =>
           if p2 c1 c2 then drop_front p1 p2 p3 t2
           else match t2 with
                | [] => l
                | c3 :: t3 =>
                  if p3 c1 c2 c3 then drop_front p1 p2 p3 t3 else l
                end
         end
  end.

Definition lstrip_bytes (l : list ascii) : list ascii :=
  drop_front sp1 sp2 sp3 l.

(** From the back the bytes of a code point are met in reverse order. *)
Definition rstrip_bytes (l : list ascii) : list ascii :=
  rev (drop_front sp1 (fun a b => sp2 b a) (fun a b c => sp3 c b a) (rev l)).

Definition strip (s : string) : string :=
  string_of_list_ascii (rstrip_bytes (lstrip_bytes (list_ascii_of_string s))).

(** [sep.join(parts)] *)
Fixpoint join (sep : string) (parts : list string) : string :=
  match parts with
  | [] => ""
  | [p] => p
  | p :: rest => p ++ sep ++ join sep rest
  end.

(** [format(n, "0<w>d")]: decimal, zero-padded to [w] characters, the
    sign counted in the width. *)
Definition decimal (n : Z) : string :=
  NilEmpty.string_of_uint (N.to_uint (Z.to_N (Z.abs n))).

Fixpoint zeros (k : nat) : string :=
  match k with
  | O => ""
  | S k' => String "0" (zeros k')
  end.

Definition format_0d (w : nat) (n : Z) : string :=
  let d := decimal n in
  if (n <? 0)%Z
  then "-" ++ zeros (w - 1 - String.length d) ++ d
  else zeros (w - String.length d) ++ d.

(** Truth value of a [float]: zero of either sign is false, NaN is true. *)
Definition float_truthy (x : float) : bool := negb (PrimFloat.eqb x 0%float).

(** [x or 0.0] on a float. *)
Definition float_or_zero (x : float) : float :=
  if float_truthy x then x else 0%float.

(** The [calendar] module. *)
Definition isleap (year : Z) : bool :=
  ((year mod 4 =? 0) && (negb (year mod 100 =? 0) || (year mod 400 =? 0)))%Z.

Definition mdays (month : Z) : Z :=
  match month with
  | 1 => 31 | 2 => 28 | 3 => 31 | 4 => 30 | 5 => 31 | 6 => 30
  | 7 => 31 | 8 => 31 | 9 => 30 | 10 => 31 | 11 => 30 | 12 => 31
  | _ => 0
  end%Z.

(** Second component of [calendar.monthrange(year, month)]. *)
Definition monthrange_ndays (year month : Z) : result Z :=
  if ((1 <=? month) && (month <=? 12))%Z
  then Ok (mdays month + (if (month =? 2)%Z && isleap year then 1 else 0))%Z
  else Raise (IllegalMonthError month).

(** [datetime.date]: the constructor checks the year; month and day are
    in range at every call of this program once [monthrange] returned. *)
Record date : Type := mk_date { year : Z; month : Z; day : Z }.

Definition date_new (y m d : Z) : result date :=
  if ((1 <=? y) && (y <=? 9999))%Z then Ok (mk_date y m d)
  else Raise (YearOutOfRange y).

Definition isoformat (d : date) : string :=
  format_0d 4 (year d) ++ "-" ++ format_0d 2 (month d) ++ "-" ++ format_0d 2 (day d).

(** A stable sort by insertion, for [sorted] and for [ORDER BY]. *)
Fixpoint insert_by {A : Type} (le : A -> A -> bool) (x : A) (l : list A)
  : list A :=
  match l with
  | [] => [x]
  | y :: rest => if le x y then x :: y :: rest else y :: insert_by le x rest
  end.

Fixpoint sort_by {A : Type} (le : A -> A -> bool) (l : list A) : list A :=
  match l with
  | [] => []
  | x :: rest => insert_by le x (sort_by le rest)
  end.

(** [sorted(l)] on texts: they compare by code points, which on UTF-8 is
    the order of the bytes. *)
Definition sorted (l : list string) : list string := sort_by String.leb l.

(** [s.split(sep)] for a separator of one ASCII character. *)
Fixpoint split (sep : ascii) (s : string) : list string :=
  match s with
  | EmptyString => [EmptyString]
  | String c rest =>
    match split sep rest with
    | [] => [String c EmptyString]
    | w :: ws =>
      if Ascii.eqb c sep then EmptyString :: w :: ws else String c w :: ws
    end
  end.

(** [len(s)]: the number of code points, that is of bytes that do not
    continue a code point. *)
Definition is_continuation (c : ascii) : bool :=
  ((128 <=? N_of_ascii c) && (N_of_ascii c <=? 191))%N.

Definition len (s : string) : nat :=
  List.length (filter (fun c => negb (is_continuation c))
                 (list_ascii_of_string s)).

(** The first [n] code points of a byte list read from its end: a code
    point is complete once its leading byte is met. *)
Fixpoint take_back (l : list ascii) (n : nat) : list ascii :=
  match l with
  | [] => []
  | c :: rest =>
    match n with
    | O => []
    | S k =>
      if is_continuation c then c :: take_back rest (S k)
      else c :: take_back rest k
    end
  end.

(** [s[-n:]]; with [n = 0] the slice starts at 0 and is the whole text. *)
Definition last_chars (n : nat) (s : string) : string :=
  match n with
  | O => s
  | _ => string_of_list_ascii (rev (take_back (rev (list_ascii_of_string s)) n))
  end.

(** Whether a float is NaN, as [pd.isna] on a number. *)
Definition isnan (x : float) : bool := negb (PrimFloat.eqb x x).

End Py.

(* ------------------------------------------------------------------ *)
(** ** db.py: the three tables *)

(** [estado TEXT CHECK (estado IN ('BORRADOR','ENVIADO','APROBADO','RECHAZADO'))] *)
Inductive Estado : Type := BORRADOR | ENVIADO | APROBADO | RECHAZADO.

(** [tipo TEXT CHECK (tipo IN ('G','F','D','HO','HV','HE'))] *)
Inductive Tipo : Type := G | F | D | HO | HV | HE.

Definition Estado_eqb (a b : Estado) : bool :=
  match a, b with
  | BORRADOR, BORRADOR | ENVIADO, ENVIADO
  | APROBADO, APROBADO | RECHAZADO, RECHAZADO => true
  | _, _ => false
  end.

Definition Tipo_eqb (a b : Tipo) : bool :=
  match a, b with
  | G, G | F, F | D, D | HO, HO | HV, HV | HE, HE => true
  | _, _ => false
  end.

(** A row of [personal], and the dictionary [upsert_personal_rows] takes. *)
Module Persona.
Record t : Type := mk {
  legajo : string;
  cuil : string;
  nombre : string;
  leader_legajo : string;
  funcion : option string;
  origen : option string;
  lugar_trabajo : option string;
  extra_json : option string
}.
End Persona.

(** A row of [partes]. *)
Module Parte.
Record t : Type := mk {
  legajo : string;
  periodo_yyyymm : string;
  estado : Estado;
  submitted_at : option string;
  approved_at : option string;
  approved_by_legajo : option string;
  rejection_comment : option string
}.
End Parte.

(** A row of [items], and the dictionary [insert_items] takes. *)
Module Item.
Record t : Type := mk {
  legajo : string;
  fecha : string;
  tipo : Tipo;
  valor_text : option string;
  valor_num : option float;
  comentario : option string
}.
End Item.

Module Db.

Record t : Type := mk {
  personal : list Persona.t;
  partes : list Parte.t;
  items : list Item.t
}.

(** What [migrate] leaves on a fresh database. *)
Definition empty : t := mk [] [] [].

Definition with_personal (db : t) (l : list Persona.t) : t :=
  mk l (partes db) (items db).
Definition with_partes (db : t) (l : list Parte.t) : t :=
  mk (personal db) l (items db).
Definition with_items (db : t) (l : list Item.t) : t :=
  mk (personal db) (partes db) l.

(** [COALESCE(?, column)] *)
Definition coalesce {A : Type} (arg stored : option A) : option A :=
  match arg with
  | Some v => Some v
  | None => stored
  end.

(* ---------- Personal ---------- *)

Definition persona_is (legajo : string) (p : Persona.t) : bool :=
  String.eqb (Persona.legajo p) legajo.

(** [INSERT INTO personal ... ON CONFLICT(legajo) DO UPDATE SET ...]: every
    column but the key takes the new value. *)
Fixpoint insert_or_update_persona (new : Persona.t) (tbl : list Persona.t)
  : list Persona.t :=
  match tbl with
  | [] => [new]
  | p :: rest =>
    if persona_is (Persona.legajo new) p then new :: rest
    else p :: insert_or_update_persona new rest
  end.

(** The parameter tuple of the statement, built from the dictionary [r]. *)
Definition persona_params (r : Persona.t) : Persona.t :=
  Persona.mk (Py.strip (Persona.legajo r)) (Py.strip (Persona.cuil r))
    (Py.strip (Persona.nombre r)) (Py.strip (Persona.leader_legajo r))
    (Persona.funcion r) (Persona.origen r) (Persona.lugar_trabajo r)
    (Persona.extra_json r).

(** One turn of the loop of [upsert_personal_rows]; the state is the
    table with the two counters [(inserted, updated)]. *)
Definition upsert_step (st : list Persona.t * (nat * nat)) (r : Persona.t)
  : list Persona.t * (nat * nat) :=
  let '(tbl, (inserted, updated)) := st in
  let legajo := Py.strip (Persona.legajo r) in
  let exists_ := existsb (persona_is legajo) tbl in
  let tbl' := insert_or_update_persona (persona_params r) tbl in
  let updated' := updated + (if exists_ then 1 else 0) in
  let inserted' := inserted + (if exists_ then 0 else 1) in
  (tbl', (inserted', updated')).

Definition upsert_personal_rows (db : t) (rows : list Persona.t)
  : t * (nat * nat) :=
  let '(tbl, counts) := fold_left upsert_step rows (personal db, (0, 0)) in
  (with_personal db tbl, counts).

Definition get_person_by_legajo (db : t) (legajo : string) : option Persona.t :=
  find (persona_is (Py.strip legajo)) (personal db).

(* ---------- Partes ---------- *)

Definition parte_is (legajo periodo : string) (p : Parte.t) : bool :=
  String.eqb (Parte.legajo p) legajo && String.eqb (Parte.periodo_yyyymm p) periodo.

(** [INSERT INTO partes (legajo, periodo_yyyymm, estado) VALUES (?, ?, 'BORRADOR')
     ON CONFLICT(legajo, periodo_yyyymm) DO NOTHING] *)
Definition insert_parte_do_nothing (legajo periodo : string) (tbl : list Parte.t)
  : list Parte.t :=
  if existsb (parte_is legajo periodo) tbl then tbl
  else tbl ++ [Parte.mk legajo periodo BORRADOR None None None None].

(** [SELECT * FROM partes WHERE legajo = ? AND periodo_yyyymm = ?] then
    [fetchone()]. *)
Definition select_parte (legajo periodo : string) (tbl : list Parte.t)
  : option Parte.t :=
  find (parte_is legajo periodo) tbl.

(** The result is the store after the insert and what [fetchone()] gives
    for the key. *)
Definition get_or_create_parte (db : t) (legajo periodo_yyyymm : string)
  : t * option Parte.t :=
  let legajo := Py.strip legajo in
  let periodo_yyyymm := Py.strip periodo_yyyymm in
  let tbl := insert_parte_do_nothing legajo periodo_yyyymm (partes db) in
  (with_partes db tbl, select_parte legajo periodo_yyyymm tbl).

Definition get_parte (db : t) (legajo periodo_yyyymm : string) : option Parte.t :=
  select_parte (Py.strip legajo) (Py.strip periodo_yyyymm) (partes db).

(** The [SET] clause of [update_parte_estado] on one row. *)
Definition set_estado (nuevo_estado : Estado)
  (submitted_at approved_at approved_by_legajo rejection_comment : option string)
  (p : Parte.t) : Parte.t :=
  Parte.mk (Parte.legajo p) (Parte.periodo_yyyymm p)
    nuevo_estado
    (coalesce submitted_at (Parte.submitted_at p))
    (coalesce approved_at (Parte.approved_at p))
    (coalesce approved_by_legajo (Parte.approved_by_legajo p))
    rejection_comment.

Definition update_parte_estado (db : t) (legajo periodo_yyyymm : string)
  (nuevo_estado : Estado)
  (submitted_at approved_at approved_by_legajo rejection_comment : option string)
  : t :=
  let legajo := Py.strip legajo in
  let periodo_yyyymm := Py.strip periodo_yyyymm in
  with_partes db
    (map (fun p =>
            if parte_is legajo periodo_yyyymm p
            then set_estado nuevo_estado submitted_at approved_at
                   approved_by_legajo rejection_comment p
            else p)
         (partes db)).

(* ---------- Items ---------- *)

(** [WHERE legajo = ? AND fecha IN (...)] *)
Definition item_in_dates (legajo : string) (fechas_iso : list string)
  (it : Item.t) : bool :=
  String.eqb (Item.legajo it) legajo
  && existsb (String.eqb (Item.fecha it)) fechas_iso.

Definition delete_items_for_dates (db : t) (legajo : string)
  (fechas_iso : list string) : t :=
  match fechas_iso with
  | [] => db
  | _ =>
    let legajo := Py.strip legajo in
    with_items db
      (filter (fun it => negb (item_in_dates legajo fechas_iso it)) (items db))
  end.

(** The parameter tuple [insert_items] builds from a dictionary; [tipo] is
    one of the six literals and has no surrounding whitespace. *)
Definition item_params (it : Item.t) : Item.t :=
  Item.mk (Py.strip (Item.legajo it)) (Py.strip (Item.fecha it)) (Item.tipo it)
    (Item.valor_text it) (Item.valor_num it) (Item.comentario it).

Definition insert_items (db : t) (its : list Item.t) : t :=
  match its with
  | [] => db
  | _ => with_items db (items db ++ map item_params its)
  end.

(* ---------- Leaders and pending timesheets ---------- *)

(** [SELECT DISTINCT leader_legajo FROM personal WHERE leader_legajo IS NOT
    NULL AND leader_legajo <> ''], each value stripped, the list sorted.
    The column is [NOT NULL]. *)
Definition leader_set_in_db (db : t) : list string :=
  Py.sorted
    (map Py.strip
       (nodup string_dec
          (filter (fun l => negb (String.eqb l ""))
             (map Persona.leader_legajo (personal db))))).

(** A row of [list_pendientes_para_lider]: [p.legajo, per.nombre,
    p.periodo_yyyymm, p.estado, p.submitted_at]; the [p.id] it also
    selects is only shown. *)
Record pendiente : Type := mk_pendiente {
  pe_legajo : string;
  pe_nombre : string;
  pe_periodo_yyyymm : string;
  pe_estado : Estado;
  pe_submitted_at : option string
}.

Section Collation.

(** How the database orders two texts ([a <= b]) depends on its
    collation; the queries are modelled for any. *)
Variable collate : string -> string -> bool.

(** [ORDER BY p.submitted_at DESC NULLS LAST, per.nombre]; sqlite puts
    the nulls last on a descending key by itself. *)
Definition pendiente_before (a b : pendiente) : bool :=
  match pe_submitted_at a, pe_submitted_at b with
  | Some x, Some y =>
    if String.eqb x y then collate (pe_nombre a) (pe_nombre b)
    else collate y x
  | Some _, None => true
  | None, Some _ => false
  | None, None => collate (pe_nombre a) (pe_nombre b)
  end.

Definition list_pendientes_para_lider (db : t) (leader_legajo : string)
  : list pendiente :=
  let leader_legajo := Py.strip leader_legajo in
  Py.sort_by pendiente_before
    (flat_map
       (fun p =>
          flat_map
            (fun per =>
               if String.eqb (Persona.legajo per) (Parte.legajo p)
                  && Estado_eqb (Parte.estado p) ENVIADO
                  && String.eqb (Persona.leader_legajo per) leader_legajo
               then [mk_pendiente (Parte.legajo p) (Persona.nombre per)
                       (Parte.periodo_yyyymm p) (Parte.estado p)
                       (Parte.submitted_at p)]
               else [])
            (personal db))
       (partes db)).

End Collation.

End Db.

(* ------------------------------------------------------------------ *)
(** ** app.py: the month grid *)

(** A row of the month data frame: [Fecha], the four flag columns, the two
    numeric columns and [Comentario].  A numeric cell left empty is NaN; an
    empty text cell is [None]. *)
Module GridRow.
Record t : Type := mk {
  Fecha : string;
  G : bool;
  F : bool;
  D : bool;
  HO : bool;
  HV : float;
  HE : float;
  Comentario : option string
}.
End GridRow.

Module App.

Definition TIPOS_DIA : list Tipo := [G; F; D; HO].

Definition ESTADOS_EDITABLES : list Estado := [BORRADOR; RECHAZADO].

Definition yyyymm_from_year_month (y m : Z) : string :=
  Py.format_0d 4 y ++ Py.format_0d 2 m.

Definition month_bounds (y m : Z) : result (Py.date * Py.date) :=
  last_day <- Py.monthrange_ndays y m ;;
  first <- Py.date_new y m 1 ;;
  last <- Py.date_new y m last_day ;;
  Ok (first, last).

(** [range(a, b)] *)
Definition range (a b : Z) : list Z :=
  map (fun i => (a + Z.of_nat i)%Z) (seq 0 (Z.to_nat (b - a))).

(** A list comprehension whose element expression may raise. *)
Fixpoint comprehension {A B : Type} (f : A -> result B) (l : list A)
  : result (list B) :=
  match l with
  | [] => Ok []
  | a :: rest =>
    b <- f a ;;
    bs <- comprehension f rest ;;
    Ok (b :: bs)
  end.

Definition month_dates (y m : Z) : result (list Py.date) :=
  bounds <- month_bounds y m ;;
  comprehension (fun d => Py.date_new y m d)
    (range 1 (Py.day (snd bounds) + 1)).

Definition build_month_df (y m : Z) : result (list GridRow.t) :=
  dates <- month_dates y m ;;
  Ok (map (fun d => GridRow.mk (Py.isoformat d) false false false false
                      0%float 0%float (Some ""))
          dates).

(** [by_date.setdefault(f, []).append(r)] on a dictionary kept in
    insertion order. *)
Fixpoint setdefault_append (f : string) (r : Item.t)
  (by_date : list (string * list Item.t)) : list (string * list Item.t) :=
  match by_date with
  | [] => [(f, [r])]
  | (k, lst) :: rest =>
    if String.eqb k f then (k, lst ++ [r]) :: rest
    else (k, lst) :: setdefault_append f r rest
  end.

Definition group_by_date (items_rows : list Item.t)
  : list (string * list Item.t) :=
  fold_left (fun by_date r => setdefault_append (Item.fecha r) r by_date)
    items_rows [].

(** [by_date.get(f, [])] *)
Definition by_date_get (by_date : list (string * list Item.t)) (f : string)
  : list Item.t :=
  match find (fun kv => String.eqb (fst kv) f) by_date with
  | Some (_, lst) => lst
  | None => []
  end.

(** The locals of the per-day loop of [items_to_month_df]. *)
Record Day : Type := mk_day {
  flag_G : bool;
  flag_F : bool;
  flag_D : bool;
  flag_HO : bool;
  hv : float;
  he : float;
  comentario : string
}.

Definition day_init : Day :=
  mk_day false false false false 0%float 0%float "".

(** [it["valor_num"] or 0.0] *)
Definition valor_num_or_zero (it : Item.t) : float :=
  match Item.valor_num it with
  | Some x => Py.float_or_zero x
  | None => 0%float
  end.

(** Truth value of [it.get("comentario")]. *)
Definition comentario_truthy (c : option string) : bool :=
  match c with
  | Some s => negb (String.eqb s "")
  | None => false
  end.

Definition day_step (d : Day) (it : Item.t) : Day :=
  let d1 :=
    match Item.tipo it with
    | G => mk_day true (flag_F d) (flag_D d) (flag_HO d) (hv d) (he d) (comentario d)
    | F => mk_day (flag_G d) true (flag_D d) (flag_HO d) (hv d) (he d) (comentario d)
    | D => mk_day (flag_G d) (flag_F d) true (flag_HO d) (hv d) (he d) (comentario d)
    | HO => mk_day (flag_G d) (flag_F d) (flag_D d) true (hv d) (he d) (comentario d)
    | HV => mk_day (flag_G d) (flag_F d) (flag_D d) (flag_HO d)
              (hv d + valor_num_or_zero it)%float (he d) (comentario d)
    | HE => mk_day (flag_G d) (flag_F d) (flag_D d) (flag_HO d)
              (hv d) (he d + valor_num_or_zero it)%float (comentario d)
    end in
  if comentario_truthy (Item.comentario it) && String.eqb (comentario d1) ""
  then mk_day (flag_G d1) (flag_F d1) (flag_D d1) (flag_HO d1) (hv d1) (he d1)
         (match Item.comentario it with Some s => s | None => "" end)
  else d1.

(** The body of the loop over the rows of the frame: the cells of row
    [row] are overwritten from the items of its date. *)
Definition fill_row (by_date : list (string * list Item.t)) (row : GridRow.t)
  : GridRow.t :=
  let f := GridRow.Fecha row in
  let lst := by_date_get by_date f in
  let d := fold_left day_step lst day_init in
  GridRow.mk f (flag_G d) (flag_F d) (flag_D d) (flag_HO d) (hv d) (he d)
    (Some (comentario d)).

Definition items_to_month_df (items_rows : list Item.t) (y m : Z)
  : result (list GridRow.t) :=
  df <- build_month_df y m ;;
  match items_rows with
  | [] => Ok df
  | _ => Ok (map (fill_row (group_by_date items_rows)) df)
  end.

(** [bool(r.get(t, False))] *)
Definition row_flag (t : Tipo) (r : GridRow.t) : bool :=
  match t with
  | G => GridRow.G r
  | F => GridRow.F r
  | D => GridRow.D r
  | HO => GridRow.HO r
  | HV | HE => false
  end.

(** [(r.get("Comentario") or "").strip() or None] *)
Definition row_comentario (r : GridRow.t) : option string :=
  let s := Py.strip (match GridRow.Comentario r with Some c => c | None => "" end) in
  if String.eqb s "" then None else Some s.

(** The items one row of the frame adds to the list [items] in
    [save_month_df_as_items]. *)
Definition row_items (legajo : string) (r : GridRow.t) : list Item.t :=
  let f := GridRow.Fecha r in
  let comentario := row_comentario r in
  let hv := Py.float_or_zero (GridRow.HV r) in
  let he := Py.float_or_zero (GridRow.HE r) in
  flat_map (fun t => if row_flag t r
                     then [Item.mk legajo f t (Some "1") None comentario]
                     else [])
           TIPOS_DIA
  ++ (if (0 <? hv)%float
      then [Item.mk legajo f HV None (Some hv) comentario] else [])
  ++ (if (0 <? he)%float
      then [Item.mk legajo f HE None (Some he) comentario] else []).

(** The list [items] when the loop of [save_month_df_as_items] ends. *)
Definition month_df_items (legajo : string) (df : list GridRow.t) : list Item.t :=
  flat_map (row_items legajo) df.

Definition save_month_df_as_items (db : Db.t) (legajo : string) (y m : Z)
  (df : list GridRow.t) : Db.t :=
  let fechas := map GridRow.Fecha df in
  let db1 := Db.delete_items_for_dates db legajo fechas in
  Db.insert_items db1 (month_df_items legajo df).

Definition can_edit (estado : Estado) : bool :=
  existsb (Estado_eqb estado) ESTADOS_EDITABLES.

(** What a page shows after a button was handled. *)
Inductive aviso : Type :=
| st_success (msg : string)
| st_error (msg : string)
| st_caption (msg : string)
| nada.

Inductive boton_empleado : Type := Guardar_borrador | Enviar_a_aprobacion | Ninguno.

(** [page_empleado], from the read of the timesheet to the two buttons.
    [legajo] is [user["legajo"]], [edited] the frame the editor returns,
    [now] the value of [utcnow_str()].  The year and the month come from
    select boxes, so building the frame shown in the editor does not raise;
    that part only reads the store.  A timesheet that could not be read
    would stop the page before any button; it is given as not editable. *)
Definition page_empleado (now : string) (db : Db.t) (legajo : string) (y m : Z)
  (edited : list GridRow.t) (boton : boton_empleado) : Db.t * aviso :=
  let periodo := yyyymm_from_year_month y m in
  let '(db0, parte) := Db.get_or_create_parte db legajo periodo in
  let editable :=
    match parte with
    | Some p => can_edit (Parte.estado p)
    | None => false
    end in
  if editable then
    match boton with
    | Guardar_borrador =>
      let db1 := save_month_df_as_items db0 legajo y m edited in
      (Db.update_parte_estado db1 legajo periodo BORRADOR None None None None,
       st_success "Guardado.")
    | Enviar_a_aprobacion =>
      let db1 := save_month_df_as_items db0 legajo y m edited in
      (Db.update_parte_estado db1 legajo periodo ENVIADO (Some now) None None None,
       st_success "Enviado a aprobación. Queda bloqueado.")
    | Ninguno => (db0, nada)
    end
  else (db0, st_caption "Edición deshabilitada por estado del parte.").

Inductive boton_lider : Type := Aprobar | Confirmar_rechazo (comment : string).

(** The two buttons of [page_lider] on the timesheet [(legajo_sel,
    periodo_sel)] picked from the pending list; [user_legajo] is the
    leader's [user["legajo"]]. *)
Definition page_lider (now : string) (db : Db.t) (user_legajo : string)
  (legajo_sel periodo_sel : string) (boton : boton_lider) : Db.t * aviso :=
  match boton with
  | Aprobar =>
    (Db.update_parte_estado db legajo_sel periodo_sel APROBADO
       None (Some now) (Some user_legajo) None,
     st_success "Aprobado.")
  | Confirmar_rechazo comment =>
    if String.eqb (Py.strip comment) ""
    then (db, st_error "El comentario es obligatorio.")
    else
      (Db.update_parte_estado db legajo_sel periodo_sel RECHAZADO
         None None (Some user_legajo) (Some (Py.strip comment)),
       st_success "Rechazado.")
  end.

(** The value of the setting [LEADER_LEGAJOS]: a text from the
    environment, or a list from the secrets file, its elements given as
    [str()] prints them. *)
Inductive setting : Type :=
| SettingText (s : string)
| SettingList (l : list string).

Definition setting_truthy (v : option setting) : bool :=
  match v with
  | Some (SettingText s) => negb (String.eqb s "")
  | Some (SettingList l) => match l with [] => false | _ => true end
  | None => false
  end.

(** [[x.strip() for x in leaders.split(",") if x.strip()]] *)
Definition comma_parts (s : string) : list string :=
  map Py.strip
    (filter (fun x => negb (String.eqb (Py.strip x) "")) (Py.split "," s)).

(** [resolve_leaders], from the value [cfg("LEADER_LEGAJOS", None)]. *)
Definition resolve_leaders (leaders : option setting) (db : Db.t)
  : list string :=
  if setting_truthy leaders then
    match leaders with
    | Some (SettingText s) => comma_parts s
    | Some (SettingList l) => map Py.strip l
    | None => []
    end
  else Db.leader_set_in_db db.

(** The dictionary [compute_totals] returns. *)
Record Totals : Type := mk_totals {
  tot_G : nat;
  tot_F : nat;
  tot_D : nat;
  tot_HO : nat;
  tot_HV : float;
  tot_HE : float
}.

Section Totals.

(** [Series.sum()] on a column of floats is pandas' own summation. *)
Variable series_sum : list float -> float.

(** [df[t].fillna(False).astype(bool).sum()] *)
Definition count_true (col : list bool) : nat :=
  List.length (filter (fun b => b) col).

(** [pd.to_numeric(col, errors="coerce").fillna(0)] on a float cell. *)
Definition fillna_zero (x : float) : float :=
  if Py.isnan x then 0%float else x.

Definition compute_totals (df : list GridRow.t) : Totals :=
  mk_totals
    (count_true (map (row_flag G) df))
    (count_true (map (row_flag F) df))
    (count_true (map (row_flag D) df))
    (count_true (map (row_flag HO) df))
    (series_sum (map (fun r => fillna_zero (GridRow.HV r)) df))
    (series_sum (map (fun r => fillna_zero (GridRow.HE r)) df)).

End Totals.

End App.

(* ------------------------------------------------------------------ *)
(** ** excel_io.py: the master import *)

Module ExcelIo.

(** A cell value pandas hands out: a text, or another scalar (number, date,
    boolean) given with what [str()] prints for it. *)
Inductive value : Type :=
| Text (s : string)
| Scalar (printed : string).

Definition str (v : value) : string :=
  match v with
  | Text s => s
  | Scalar printed => printed
  end.

(** A cell; [None] is a missing one, where [pd.notna] is false. *)
Definition cell : Type := option value.

(** The frame [pd.read_excel] returns for a sheet: the header labels and
    the data rows, each row holding one cell per label.  Labels are taken
    to be pairwise different, as [r[c]] needs to yield a single cell. *)
Record DataFrame : Type := mk_df {
  columns : list string;
  data : list (list cell)
}.

(** A workbook: the sheets in order, by name. *)
Definition workbook : Type := list (string * DataFrame).

(** A dictionary with text keys, in insertion order; assigning to a key
    that is present overwrites its value in place. *)
Fixpoint dict_set {V : Type} (k : string) (v : V) (d : list (string * V))
  : list (string * V) :=
  match d with
  | [] => [(k, v)]
  | (k', v') :: rest =>
    if String.eqb k' k then (k', v) :: rest
    else (k', v') :: dict_set k v rest
  end.

Fixpoint dict_get {V : Type} (d : list (string * V)) (k : string) : option V :=
  match d with
  | [] => None
  | (k', v') :: rest => if String.eqb k' k then Some v' else dict_get rest k
  end.

(** [r[c]]: the cell of row [r] under the label [c]. *)
Fixpoint row_get (cols : list string) (r : list cell) (c : string) : cell :=
  match cols, r with
  | c' :: cols', v :: r' => if String.eqb c' c then v else row_get cols' r' c
  | _, _ => None
  end.

(** [str(r[c]).strip() if pd.notna(r[c]) else ""] *)
Definition cell_text (v : cell) : string :=
  match v with
  | Some x => Py.strip (str x)
  | None => ""
  end.

(** A column name that counts as true: found and not the empty text. *)
Definition truthy_col (c : option string) : option string :=
  match c with
  | Some name => if String.eqb name "" then None else Some name
  | None => None
  end.

Definition missing_label (c : option string) (label : string) : list string :=
  match truthy_col c with
  | Some _ => []
  | None => [label]
  end.

Section MasterImport.

(** [str.lower], Unicode case mapping, and [json.dumps(extra, default=str,
    ensure_ascii=False)] are library functions; the import is modelled for
    any such pair. *)
Variable lower : string -> string.
Variable json_dumps : list (string * value) -> string.

Definition norm_key (c : string) : string := lower (Py.strip c).

Fixpoint first_candidate (norm : list (string * string))
  (candidates : list string) : option string :=
  match candidates with
  | [] => None
  | cand :: rest =>
    match dict_get norm (norm_key cand) with
    | Some c => Some c
    | None => first_candidate norm rest
    end
  end.

Definition _col (cols : list string) (candidates : list string)
  : option string :=
  let norm := fold_left (fun d c => dict_set (norm_key c) c d) cols [] in
  first_candidate norm candidates.

(** The optional text columns:
    [str(r[c]).strip() if c and pd.notna(r[c]) else None] *)
Definition optional_text (cols : list string) (r : list cell)
  (c : option string) : option string :=
  match truthy_col c with
  | Some name =>
    match row_get cols r name with
    | Some x => Some (Py.strip (str x))
    | None => None
    end
  | None => None
  end.

(** The dictionary [extra] of one row. *)
Definition extra_of (cols : list string) (mapped : list (option string))
  (r : list cell) : list (string * value) :=
  fold_left
    (fun extra col =>
       if existsb (fun c => match c with
                            | Some name => String.eqb name col
                            | None => false
                            end) mapped
       then extra
       else match row_get cols r col with
            | Some val => dict_set col val extra
            | None => extra
            end)
    cols [].

(** The dictionary the loop appends to [rows] for the row [r]. *)
Definition row_record (cols : list string)
  (c_legajo c_cuil c_nombre c_leader : string)
  (c_funcion c_origen c_lugar : option string) (r : list cell) : Persona.t :=
  let extra :=
    extra_of cols
      [Some c_legajo; Some c_cuil; Some c_nombre; Some c_leader;
       c_funcion; c_origen; c_lugar] r in
  Persona.mk
    (cell_text (row_get cols r c_legajo))
    (cell_text (row_get cols r c_cuil))
    (cell_text (row_get cols r c_nombre))
    (cell_text (row_get cols r c_leader))
    (optional_text cols r c_funcion)
    (optional_text cols r c_origen)
    (optional_text cols r c_lugar)
    (match extra with
     | [] => None
     | _ => Some (json_dumps extra)
     end).

(** One turn of the loop over the rows; the state is [(rows, warnings)]. *)
Definition row_step (cols : list string)
  (c_legajo c_cuil c_nombre c_leader : string)
  (c_funcion c_origen c_lugar : option string)
  (st : list Persona.t * list string) (r : list cell)
  : list Persona.t * list string :=
  let '(rows, warnings) := st in
  let legajo := cell_text (row_get cols r c_legajo) in
  if String.eqb legajo "" then (rows, warnings)
  else
    let cuil := cell_text (row_get cols r c_cuil) in
    let nombre := cell_text (row_get cols r c_nombre) in
    let leader_legajo := cell_text (row_get cols r c_leader) in
    let warnings' :=
      if String.eqb cuil "" || String.eqb nombre "" || String.eqb leader_legajo ""
      then warnings
           ++ [("Legajo " ++ legajo ++ ": faltan datos (CUIL/NOMBRE/LÍDER).")%string]
      else warnings in
    (rows ++ [row_record cols c_legajo c_cuil c_nombre c_leader
                c_funcion c_origen c_lugar r],
     warnings').

(** [import_maestro_general], from the workbook [pd.ExcelFile] opened. *)
Definition import_maestro_general (xls : workbook)
  : result (list Persona.t * list string) :=
  match find (fun s => String.eqb (lower (Py.strip (fst s))) "general") xls with
  | None => Raise (ValueError "No se encontró la pestaña 'General' en el Excel.")
  | Some (_, df) =>
    let cols := map Py.strip (columns df) in
    let c_legajo := _col cols ["Legajo"; "Legajo Clear"; "LegajoClear"] in
    let c_cuil := _col cols ["CUIL"] in
    let c_nombre := _col cols ["Nombre y Apellido"; "Nombre"; "Apellido y Nombre"] in
    let c_leader := _col cols ["leader_legajo"; "Lider"; "Líder"; "Jefe"; "leader"] in
    match truthy_col c_legajo, truthy_col c_cuil,
          truthy_col c_nombre, truthy_col c_leader with
    | Some k_legajo, Some k_cuil, Some k_nombre, Some k_leader =>
      let c_funcion := _col cols ["FUNCIÓN"; "Función"; "Funcion"] in
      let c_origen := _col cols ["Origen"] in
      let c_lugar :=
        _col cols ["Lugar de trabajo"; "Lugar de Trabajo"; "LugarTrabajo"; "Lugar"] in
      Ok (fold_left
            (row_step cols k_legajo k_cuil k_nombre k_leader c_funcion c_origen c_lugar)
            (data df) ([], []))
    | _, _, _, _ =>
      let missing :=
        missing_label c_legajo "Legajo (o Legajo Clear)"
        ++ missing_label c_cuil "CUIL"
        ++ missing_label c_nombre "Nombre y Apellido (o Nombre)"
        ++ missing_label c_leader "leader_legajo (o Lider/Líder/Jefe)" in
      Raise (ValueError ("Faltan columnas requeridas en 'General': "
                         ++ Py.join ", " missing)%string)
    end
  end.

End MasterImport.

End ExcelIo.

(* ------------------------------------------------------------------ *)
(** ** auth.py *)

Module Auth.

(** The dictionary [user] of a successful login. *)
Record User : Type := mk_user {
  legajo : string;
  nombre : string;
  leader_legajo : string
}.

Section Login.

(** [re.sub(r"\D+", "", s)]: what is a digit is the [re] module's
    matter; the login is modelled for any such function. *)
Variable re_sub_nondigits : string -> string.

Definition normalize_digits (s : string) : string :=
  re_sub_nondigits (Py.strip s).

(** [verify_login]; the two inputs are the texts of the form. *)
Definition verify_login (db : Db.t) (legajo_input cuil_input : string)
  : bool * option User * string :=
  let legajo := Py.strip legajo_input in
  if String.eqb legajo "" then (false, None, "Ingresá un legajo.")
  else
    match Db.get_person_by_legajo db legajo with
    | None => (false, None, "Legajo inexistente en el maestro.")
    | Some person =>
      let cuil_db := normalize_digits (Persona.cuil person) in
      let cuil_in := normalize_digits cuil_input in
      let user :=
        mk_user (Persona.legajo person) (Persona.nombre person)
          (Persona.leader_legajo person) in
      if String.eqb cuil_in ""
      then (false, None, "Ingresá CUIL (completo) o últimos 4.")
      else if Nat.leb (Py.len cuil_in) 4 then
        if negb (String.eqb (Py.last_chars (Py.len cuil_in) cuil_db) cuil_in)
        then (false, None, "CUIL no coincide (últimos dígitos incorrectos).")
        else (true, Some user, "")
      else
        if negb (String.eqb cuil_db cuil_in)
        then (false, None, "CUIL no coincide.")
        else (true, Some user, "")
    end.

End Login.

Definition resolve_role (user_legajo : string) (leaders : list string)
  : string :=
  if existsb (String.eqb (Py.strip user_legajo)) leaders
  then "lider" else "empleado".

End Auth.

(* ------------------------------------------------------------------ *)
(** ** app.py: the import of the master on the admin page *)

Module Admin.

(** [str(e)] of an exception. *)
Definition exn_text (e : exn) : string :=
  match e with
  | ValueError msg => msg
  | IllegalMonthError month =>
    "bad month number " ++ Py.format_0d 0 month ++ "; must be 1-12"
  | YearOutOfRange year => "year " ++ Py.format_0d 0 year ++ " is out of range"
  end.

(** [leader_set] of [page_admin]: [None] without a setting. *)
Definition leader_set_of (leaders_cfg : option App.setting)
  : option (list string) :=
  if App.setting_truthy leaders_cfg then
    match leaders_cfg with
    | Some (App.SettingText s) => Some (App.comma_parts s)
    | Some (App.SettingList l) => Some l
    | None => None
    end
  else None.

(** One turn of the loop that fills [invalid]. *)
Definition invalid_step (leader_set : option (list string))
  (invalid : list (string * string)) (r : Persona.t)
  : list (string * string) :=
  let ll := Py.strip (Persona.leader_legajo r) in
  if String.eqb ll ""
  then invalid ++ [(Persona.legajo r, "leader_legajo vacío")]
  else
    match leader_set with
    | Some set =>
      if negb (existsb (String.eqb ll) set)
      then invalid
           ++ [(Persona.legajo r,
                ("leader_legajo " ++ ll ++ " no pertenece a LEADER_LEGAJOS")%string)]
      else invalid
    | None => invalid
    end.

Section Page.

Variable lower : string -> string.
Variable json_dumps : list (string * ExcelIo.value) -> string.

(** [page_admin] once the admin is let in and a workbook is uploaded:
    the parse, the check of the leaders and, when [boton] says the import
    button was pressed, the upsert.  An exception of the parse is caught
    and shown. *)
Definition page_admin (leaders_cfg : option App.setting) (db : Db.t)
  (xls : ExcelIo.workbook) (boton : bool) : Db.t * App.aviso :=
  match ExcelIo.import_maestro_general lower json_dumps xls with
  | Raise e => (db, App.st_error ("Error importando: " ++ exn_text e))
  | Ok (rows, warnings) =>
    let invalid :=
      fold_left (invalid_step (leader_set_of leaders_cfg)) rows [] in
    match invalid with
    | _ :: _ =>
      (db, App.st_error
             "Hay registros con líder inválido. Corregí el maestro o LEADER_LEGAJOS.")
    | [] =>
      if boton then
        let '(db', (ins, upd)) := Db.upsert_personal_rows db rows in
        (db', App.st_success
                ("Import OK. Insertados: " ++ Py.decimal (Z.of_nat ins)
                 ++ " | Actualizados: " ++ Py.decimal (Z.of_nat upd)))
      else (db, App.nada)
    end
  end.

End Page.

End Admin.

(* ------------------------------------------------------------------ *)
(** ** Histories of the store *)

(** The calls of [db.py] that write to the store. *)
Inductive call : Type :=
| Upsert_personal_rows (rows : list Persona.t)
| Get_or_create_parte (legajo periodo_yyyymm : string)
| Update_parte_estado (legajo periodo_yyyymm : string) (nuevo_estado : Estado)
    (submitted_at approved_at approved_by_legajo rejection_comment : option string)
| Delete_items_for_dates (legajo : string) (fechas_iso : list string)
| Insert_items (its : list Item.t).

Definition exec (db : Db.t) (c : call) : Db.t :=
  match c with
  | Upsert_personal_rows rows => fst (Db.upsert_personal_rows db rows)
  | Get_or_create_parte l p => fst (Db.get_or_create_parte db l p)
  | Update_parte_estado l p e sa aa ab rc => Db.update_parte_estado db l p e sa aa ab rc
  | Delete_items_for_dates l fs => Db.delete_items_for_dates db l fs
  | Insert_items its => Db.insert_items db its
  end.

Definition run (db : Db.t) (calls : list call) : Db.t :=
  fold_left exec calls db.

(** [UNIQUE(legajo, periodo_yyyymm)] holds of a table. *)
Definition parte_key (p : Parte.t) : string * string :=
  (Parte.legajo p, Parte.periodo_yyyymm p).

Definition unique_partes (tbl : list Parte.t) : Prop :=
  NoDup (map parte_key tbl).

(** The three columns written through [COALESCE]: one that holds a value
    before still holds one after. *)
Definition keeps_set (before after : Parte.t) : Prop :=
  (Parte.submitted_at before <> None -> Parte.submitted_at after <> None)
  /\ (Parte.approved_at before <> None -> Parte.approved_at after <> None)
  /\ (Parte.approved_by_legajo before <> None ->
      Parte.approved_by_legajo after <> None).

(* ------------------------------------------------------------------ *)
(** ** Notions the properties are stated with *)

(** Byte lists made of whitespace code points only. *)
Inductive whitespace_only : list ascii -> Prop :=
| ws_nil : whitespace_only []
| ws_1 c l :
    Py.sp1 c = true -> whitespace_only l -> whitespace_only (c :: l)
| ws_2 c1 c2 l :
    Py.sp2 c1 c2 = true -> whitespace_only l -> whitespace_only (c1 :: c2 :: l)
| ws_3 c1 c2 c3 l :
    Py.sp3 c1 c2 c3 = true -> whitespace_only l ->
    whitespace_only (c1 :: c2 :: c3 :: l).

(** The rows [save_month_df_as_items] deletes: those of the employee on
    the dates of the frame. *)
Definition replaced (legajo : string) (df : list GridRow.t) (it : Item.t) : bool :=
  Db.item_in_dates (Py.strip legajo) (map GridRow.Fecha df) it.

(** The dates of a frame carry no surrounding whitespace, as those
    [build_month_df] writes. *)
Definition fechas_stripped (df : list GridRow.t) : Prop :=
  Forall (fun r => Py.strip (GridRow.Fecha r) = GridRow.Fecha r) df.

(** The length of a month as the specification words it: 29 days for
    February of a leap year, 28 otherwise, 30 or 31 for the other months;
    a year is a leap year when it is a multiple of 4 and not of 100, or a
    multiple of 400. *)
Definition leap_year (y : Z) : bool :=
  ((y mod 4 =? 0) && negb (y mod 100 =? 0) || (y mod 400 =? 0))%Z.

Definition days_in_month (y m : Z) : Z :=
  if (m =? 2)%Z then (if leap_year y then 29 else 28)%Z
  else if ((m =? 4) || (m =? 6) || (m =? 9) || (m =? 11))%Z then 30%Z
  else 31%Z.

(** A row as [build_month_df] writes it. *)
Definition blank_row (r : GridRow.t) : Prop :=
  GridRow.G r = false /\ GridRow.F r = false /\ GridRow.D r = false /\ GridRow.HO r = false
  /\ GridRow.HV r = 0%float /\ GridRow.HE r = 0%float /\ GridRow.Comentario r = Some "".

(** The dates of the rows of a month frame. *)
Definition month_fechas (y m : Z) : list string :=
  map (fun d => Py.isoformat (Py.mk_date y m d))
      (App.range 1 (days_in_month y m + 1)).

(** The items of kind [t] on the date [f]. *)
Definition on_day (t : Tipo) (f : string) (it : Item.t) : bool :=
  String.eqb (Item.fecha it) f && Tipo_eqb (Item.tipo it) t.

Definition is_tipo (t : Tipo) (it : Item.t) : bool := Tipo_eqb (Item.tipo it) t.

Definition add_valor (acc : float) (it : Item.t) : float :=
  (acc + App.valor_num_or_zero it)%float.

(** The sum the grid shows for a numeric kind on a date: the values of the
    day's items of the kind, in their order, added up from zero. *)
Definition total (t : Tipo) (f : string) (items_rows : list Item.t) : float :=
  fold_left add_valor (filter (on_day t f) items_rows) 0%float.



(** The row [build_month_df] writes for a date, and the row
    [items_to_month_df] leaves in its place. *)
Definition blank (f : string) : GridRow.t :=
  GridRow.mk f false false false false 0%float 0%float (Some "").

Definition filled_row (items_rows : list Item.t) (f : string) : GridRow.t :=
  App.fill_row (App.group_by_date items_rows) (blank f).

(** A printable ASCII character other than the space. *)
Definition graphic (c : ascii) : bool :=
  ((32 <? N_of_ascii c) && (N_of_ascii c <? 127))%N.

Fixpoint all_graphic (s : string) : bool :=
  match s with
  | EmptyString => true
  | String c rest => graphic c && all_graphic rest
  end.

(** The header spellings accepted for the four mandatory fields, and the
    name the error message gives each field. *)
Definition ALIAS_LEGAJO : list string := ["Legajo"; "Legajo Clear"; "LegajoClear"].
Definition ALIAS_CUIL : list string := ["CUIL"].
Definition ALIAS_NOMBRE : list string :=
  ["Nombre y Apellido"; "Nombre"; "Apellido y Nombre"].
Definition ALIAS_LEADER : list string :=
  ["leader_legajo"; "Lider"; "Líder"; "Jefe"; "leader"].


Definition LABEL_LEGAJO : string := "Legajo (o Legajo Clear)".
Definition LABEL_CUIL : string := "CUIL".
Definition LABEL_NOMBRE : string := "Nombre y Apellido (o Nombre)".
Definition LABEL_LEADER : string := "leader_legajo (o Lider/Líder/Jefe)".

(** No header of [cols] is one of the spellings [aliases], case and
    surrounding whitespace apart. *)
Definition no_header (lower : string -> string) (cols aliases : list string)
  : Prop :=
  forall c a, In c cols -> In a aliases ->
              ExcelIo.norm_key lower c <> ExcelIo.norm_key lower a.

(** The text [msg] contains [part]. *)
Definition mentions (msg part : string) : Prop :=
  exists before after, msg = (before ++ part ++ after)%string.

(** The sheet [import_maestro_general] reads from a workbook. *)
Definition general_sheet (lower : string -> string) (xls : ExcelIo.workbook)
  : option ExcelIo.DataFrame :=
  option_map snd
    (find (fun s => String.eqb (lower (Py.strip (fst s))) "general") xls).




(** Whether a row of the frame gives any item, and the row a reload shows
    in its place: the flags, the numbers above zero, and the stripped
    comment when the row gave an item. *)
Definition emits (r : GridRow.t) : bool :=
  GridRow.G r || GridRow.F r || GridRow.D r || GridRow.HO r
  || (0 <? GridRow.HV r)%float || (0 <? GridRow.HE r)%float.

Definition saved_row (r : GridRow.t) : GridRow.t :=
  GridRow.mk (GridRow.Fecha r) (GridRow.G r) (GridRow.F r) (GridRow.D r) (GridRow.HO r)
    (if (0 <? GridRow.HV r)%float then GridRow.HV r else 0%float)
    (if (0 <? GridRow.HE r)%float then GridRow.HE r else 0%float)
    (Some (if emits r
           then match App.row_comentario r with Some c => c | None => "" end
           else "")).

(** The number of dates of the month that have an item of kind [t]. *)
Definition days_with (t : Tipo) (items_rows : list Item.t) (y m : Z) : nat :=
  List.length
    (filter (fun f => existsb (on_day t f) items_rows) (month_fechas y m)).

(** One cell of a frame row as a list of stored rows: the item when the
    cell gives one. *)
Definition cell_rows (b : bool) (it : Item.t) : list Item.t :=
  map Db.item_params (if b then [it] else []).

(** A text that is empty or begins at a code point, as every text does
    that is well-formed UTF-8. *)
Definition starts_code_point (s : string) : bool :=
  match s with
  | EmptyString => true
  | String c _ => negb (Py.is_continuation c)
  end.

(** The [user] dictionary made from a row of [personal]. *)
Definition user_of (person : Persona.t) : Auth.User :=
  Auth.mk_user (Persona.legajo person) (Persona.nombre person)
    (Persona.leader_legajo person).

(** A record the leader check of [page_admin] lets through: its leader is
    not blank and, when there is a set of leaders, belongs to it. *)
Definition leader_allowed (leader_set : option (list string))
  (r : Persona.t) : Prop :=
  Py.strip (Persona.leader_legajo r) <> ""
  /\ forall set, leader_set = Some set ->
                 In (Py.strip (Persona.leader_legajo r)) set.

(** Texts in the order Python compares them. *)
Definition str_le (a b : string) : Prop := String.leb a b = true.

(** Whether a text has a comma. *)
Definition has_comma (x : string) : bool :=
  existsb (Ascii.eqb ",") (list_ascii_of_string x).

(** The number a text of decimal digits writes. *)
Fixpoint decode_digits (s : string) (acc : Z) : Z :=
  match s with
  | EmptyString => acc
  | String c rest =>
    decode_digits rest (10 * acc + (Z.of_N (N_of_ascii c) - 48))%Z
  end.

(* ------------------------------------------------------------------ *)
(** ** Sample data *)

Definition ej_parte_rechazado : Parte.t :=
  Parte.mk "5478" "202402" RECHAZADO (Some "2024-03-01 12:00:00") None
    (Some "5483") (Some "faltan comprobantes").

Definition ej_parte_enviado : Parte.t :=
  Parte.mk "5479" "202402" ENVIADO (Some "2024-03-02 09:30:00") None None None.

Definition ej_items : list Item.t :=
  [ Item.mk "5478" "2024-02-01" G (Some "1") None (Some "guardia");
    Item.mk "5478" "2024-02-01" HV None (Some 1.5%float) None;
    Item.mk "5478" "2024-02-01" HV None (Some 1%float) None;
    Item.mk "5478" "2024-02-29" HE None (Some 0%float) None;
    Item.mk "5478" "2024-03-01" F (Some "1") None None;
    Item.mk "5479" "2024-02-01" D (Some "1") None None ].

Definition ej_db : Db.t :=
  Db.mk [] [ej_parte_rechazado; ej_parte_enviado] ej_items.

(** The frame of February 2024 with its first two days edited. *)
Definition ej_grid : list GridRow.t :=
  [ GridRow.mk "2024-02-01" false true false false 0%float 2%float (Some " cambio ");
    GridRow.mk "2024-02-02" false false false true 0%float 0%float None ]
  ++ map blank (skipn 2 (month_fechas 2024 2)).

Definition ej_persona (legajo nombre : string) : Persona.t :=
  Persona.mk legajo "20359612835" nombre "5483" None None None None.


(** [str.lower] on ASCII letters, for the sample sheets. *)
Definition lower_ascii_char (c : ascii) : ascii :=
  let b := N_of_ascii c in
  if ((65 <=? b) && (b <=? 90))%N then ascii_of_N (b + 32) else c.

Fixpoint lower_ascii (s : string) : string :=
  match s with
  | EmptyString => EmptyString
  | String c rest => String (lower_ascii_char c) (lower_ascii rest)
  end.

(** The sample sheets have no column beyond the mapped ones, so nothing
    is ever serialised for them. *)
Definition ej_dumps (extra : list (string * ExcelIo.value)) : string := "{}".

Definition ej_sheet_sin_lider : ExcelIo.DataFrame :=
  ExcelIo.mk_df ["Legajo"; " cuil "; "NOMBRE"]
    [ [Some (ExcelIo.Scalar "5478"); Some (ExcelIo.Scalar "20359612835");
       Some (ExcelIo.Text "Ana")] ].

Definition ej_sheet : ExcelIo.DataFrame :=
  ExcelIo.mk_df ["Legajo"; "CUIL"; "Nombre"; "Jefe"]
    [ [Some (ExcelIo.Scalar "5478"); Some (ExcelIo.Scalar "20359612835");
       Some (ExcelIo.Text "Ana "); Some (ExcelIo.Scalar "5483")];
      [None; None; Some (ExcelIo.Text "fila de separación"); None];
      [Some (ExcelIo.Text "  "); Some (ExcelIo.Scalar "1"); None; None];
      [Some (ExcelIo.Scalar "5479"); None; Some (ExcelIo.Text "Beto"); None] ].

Definition ej_items_5478 : list Item.t :=
  filter (fun it => String.eqb (Item.legajo it) "5478") ej_items.

Definition ej_xls_sin_lider : ExcelIo.workbook :=
  [("Hoja1", ej_sheet); (" GENERAL ", ej_sheet_sin_lider)].

Definition ej_xls : ExcelIo.workbook := [("General", ej_sheet)].

(** The sample store with the two employees of the sample timesheets. *)
Definition ej_db_personal : Db.t :=
  Db.mk [ej_persona "5478" "Ana"; ej_persona "5479" "Beto"]
    [ej_parte_rechazado; ej_parte_enviado] ej_items.

(** [re.sub(r"\D+", "", s)] on ASCII text. *)
Fixpoint ascii_digits (s : string) : string :=
  match s with
  | EmptyString => EmptyString
  | String c rest =>
    if ((48 <=? N_of_ascii c) && (N_of_ascii c <=? 57))%N
    then String c (ascii_digits rest)
    else ascii_digits rest
  end.

(** A summation from left to right, for the sample totals. *)
Definition ej_series_sum (col : list float) : float :=
  fold_left PrimFloat.add col 0%float.

(** The two records read from [ej_sheet]. *)
Definition ej_ana : Persona.t :=
  Persona.mk "5478" "20359612835" "Ana" "5483" None None None None.

Definition ej_beto : Persona.t :=
  Persona.mk "5479" "" "Beto" "" None None None None.

Definition ej_carla : Persona.t :=
  Persona.mk "5480" "27284516390" "Carla" "5478" None None None None.

(** A sheet where every row has its leader. *)
Definition ej_sheet_lideres : ExcelIo.DataFrame :=
  ExcelIo.mk_df ["Legajo"; "CUIL"; "Nombre"; "Jefe"]
    [ [Some (ExcelIo.Scalar "5478"); Some (ExcelIo.Scalar "20359612835");
       Some (ExcelIo.Text "Ana "); Some (ExcelIo.Scalar "5483")];
      [Some (ExcelIo.Scalar "5480"); Some (ExcelIo.Scalar "27284516390");
       Some (ExcelIo.Text "Carla"); Some (ExcelIo.Scalar "5478")] ].

Definition ej_xls_lideres : ExcelIo.workbook := [("General", ej_sheet_lideres)].

(* ================================================================== *)
(** * Properties *)

(** ** The table of timesheets *)

Section Partes.

Implicit Types (db : Db.t) (tbl : list Parte.t) (row : Parte.t).

Lemma with_partes_same db : Db.with_partes db (Db.partes db) = db.
Proof. destruct db; reflexivity. Qed.

Lemma parte_is_key l p row :
  Db.parte_is l p row = true <-> parte_key row = (l, p).
Proof.
  unfold Db.parte_is, parte_key.
  rewrite andb_true_iff, !String.eqb_eq.
  split; [intros [-> ->]; reflexivity | intros H; inversion H; auto].
Qed.

Lemma parte_is_set_estado l p e sa aa ab rc row :
  Db.parte_is l p (Db.set_estado e sa aa ab rc row) = Db.parte_is l p row.
Proof. reflexivity. Qed.

Lemma existsb_find_parte l p tbl :
  existsb (Db.parte_is l p) tbl = true <-> Db.select_parte l p tbl <> None.
Proof.
  unfold Db.select_parte.
  induction tbl as [|x tbl IH]; simpl.
  - split; [discriminate | intros H; now elim H].
  - destruct (Db.parte_is l p x); simpl; [split; [discriminate | auto] | exact IH].
Qed.

Lemma select_parte_app_found l p tbl extra row :
  Db.select_parte l p tbl = Some row ->
  Db.select_parte l p (tbl ++ extra) = Some row.
Proof.
  unfold Db.select_parte.
  induction tbl as [|x tbl IH]; simpl; [discriminate|].
  destruct (Db.parte_is l p x); auto.
Qed.

Lemma select_parte_app_absent l p tbl extra :
  Db.select_parte l p tbl = None ->
  Db.select_parte l p (tbl ++ extra) = Db.select_parte l p extra.
Proof.
  unfold Db.select_parte.
  induction tbl as [|x tbl IH]; simpl; [reflexivity|].
  destruct (Db.parte_is l p x); [discriminate | auto].
Qed.

(** The statement of [update_parte_estado] on a table, read back. *)
Lemma select_after_update l p e sa aa ab rc tbl :
  Db.select_parte l p
    (map (fun x => if Db.parte_is l p x
                   then Db.set_estado e sa aa ab rc x else x) tbl)
  = option_map (Db.set_estado e sa aa ab rc) (Db.select_parte l p tbl).
Proof.
  unfold Db.select_parte.
  induction tbl as [|x tbl IH]; simpl; [reflexivity|].
  destruct (Db.parte_is l p x) eqn:E.
  - rewrite parte_is_set_estado, E. reflexivity.
  - rewrite E. exact IH.
Qed.

Lemma select_after_update_other l p l' p' e sa aa ab rc tbl :
  (l', p') <> (l, p) ->
  Db.select_parte l' p'
    (map (fun x => if Db.parte_is l p x
                   then Db.set_estado e sa aa ab rc x else x) tbl)
  = Db.select_parte l' p' tbl.
Proof.
  intros Hne. unfold Db.select_parte.
  induction tbl as [|x tbl IH]; simpl; [reflexivity|].
  destruct (Db.parte_is l p x) eqn:E.
  - rewrite parte_is_set_estado.
    destruct (Db.parte_is l' p' x) eqn:E'; [|exact IH].
    apply parte_is_key in E. apply parte_is_key in E'. congruence.
  - destruct (Db.parte_is l' p' x); [reflexivity | exact IH].
Qed.

Lemma keys_after_update l p e sa aa ab rc tbl :
  map parte_key
    (map (fun x => if Db.parte_is l p x
                   then Db.set_estado e sa aa ab rc x else x) tbl)
  = map parte_key tbl.
Proof.
  rewrite map_map. apply map_ext. intros x.
  destruct (Db.parte_is l p x); reflexivity.
Qed.

Lemma unique_after_insert l p tbl :
  unique_partes tbl -> unique_partes (Db.insert_parte_do_nothing l p tbl).
Proof.
  unfold unique_partes, Db.insert_parte_do_nothing. intros H.
  destruct (existsb (Db.parte_is l p) tbl) eqn:E; [exact H|].
  rewrite map_app. simpl.
  apply NoDup_app; [exact H | repeat constructor; intros [] |].
  intros k Hin [Hk|[]]. subst k.
  apply in_map_iff in Hin. destruct Hin as [x [Hk Hx]].
  assert (existsb (Db.parte_is l p) tbl = true); [|congruence].
  apply existsb_exists. exists x. split; [exact Hx|].
  apply parte_is_key. exact Hk.
Qed.

Lemma partes_exec_other db c :
  match c with
  | Get_or_create_parte _ _ | Update_parte_estado _ _ _ _ _ _ _ => True
  | _ => Db.partes (exec db c) = Db.partes db
  end.
Proof.
  destruct c as [rows| | |l fs|its]; simpl; auto.
  - unfold Db.upsert_personal_rows.
    destruct (fold_left Db.upsert_step rows (Db.personal db, (0, 0))) as [tbl counts].
    reflexivity.
  - destruct fs; reflexivity.
  - destruct its; reflexivity.
Qed.

Lemma unique_exec db c :
  unique_partes (Db.partes db) -> unique_partes (Db.partes (exec db c)).
Proof.
  intros H. pose proof (partes_exec_other db c) as Ho.
  destruct c; try (rewrite Ho; exact H); simpl.
  - apply unique_after_insert. exact H.
  - unfold unique_partes. rewrite keys_after_update. exact H.
Qed.

Lemma unique_run calls : forall db,
  unique_partes (Db.partes db) -> unique_partes (Db.partes (run db calls)).
Proof.
  induction calls as [|c calls IH]; intros db H; simpl; [exact H|].
  apply IH, unique_exec, H.
Qed.

Lemma keeps_set_refl row : keeps_set row row.
Proof. repeat split; auto. Qed.

Lemma keeps_set_trans a b c : keeps_set a b -> keeps_set b c -> keeps_set a c.
Proof. unfold keeps_set. intuition. Qed.

Lemma keeps_set_set_estado e sa aa ab rc row :
  keeps_set row (Db.set_estado e sa aa ab rc row).
Proof.
  unfold keeps_set, Db.set_estado, Db.coalesce; simpl.
  repeat split; intros H; [destruct sa | destruct aa | destruct ab];
    solve [discriminate | exact H].
Qed.

Lemma get_parte_exec db c l p row :
  Db.get_parte db l p = Some row ->
  exists row', Db.get_parte (exec db c) l p = Some row' /\ keeps_set row row'.
Proof.
  intros Hrow. pose proof (partes_exec_other db c) as Ho.
  unfold Db.get_parte in *.
  destruct c as [rows|l2 p2|l2 p2 e sa aa ab rc|l2 fs|its];
    try (rewrite Ho; exists row; split; [exact Hrow | apply keeps_set_refl]);
    simpl.
  - exists row. split; [|apply keeps_set_refl].
    unfold Db.insert_parte_do_nothing.
    destruct (existsb _ _); [exact Hrow|].
    apply select_parte_app_found. exact Hrow.
  - destruct (string_dec (Py.strip l) (Py.strip l2)) as [El|El];
      [destruct (string_dec (Py.strip p) (Py.strip p2)) as [Ep|Ep]|].
    + rewrite El, Ep in *. rewrite select_after_update, Hrow. simpl.
      eexists. split; [reflexivity | apply keeps_set_set_estado].
    + rewrite select_after_update_other by congruence.
      exists row. split; [exact Hrow | apply keeps_set_refl].
    + rewrite select_after_update_other by congruence.
      exists row. split; [exact Hrow | apply keeps_set_refl].
Qed.

Lemma get_parte_run calls : forall db l p row,
  Db.get_parte db l p = Some row ->
  exists row', Db.get_parte (run db calls) l p = Some row' /\ keeps_set row row'.
Proof.
  induction calls as [|c calls IH]; intros db l p row Hrow; simpl.
  - exists row. split; [exact Hrow | apply keeps_set_refl].
  - destruct (get_parte_exec db c l p Hrow) as [r1 [H1 K1]].
    destruct (IH _ _ _ _ H1) as [r2 [H2 K2]].
    exists r2. split; [exact H2 | eapply keeps_set_trans; eauto].
Qed.

Lemma get_or_create_found db legajo periodo row :
  Db.get_parte db legajo periodo = Some row ->
  Db.get_or_create_parte db legajo periodo = (db, Some row).
Proof.
  intros Hrow.
  unfold Db.get_or_create_parte, Db.get_parte, Db.insert_parte_do_nothing in *.
  assert (E : existsb (Db.parte_is (Py.strip legajo) (Py.strip periodo))
                (Db.partes db) = true)
    by (apply existsb_find_parte; congruence).
  rewrite E, with_partes_same, Hrow. reflexivity.
Qed.

Lemma get_or_create_absent db legajo periodo :
  Db.get_parte db legajo periodo = None ->
  Db.get_or_create_parte db legajo periodo
  = (Db.with_partes db
       (Db.partes db
        ++ [Parte.mk (Py.strip legajo) (Py.strip periodo) BORRADOR
              None None None None]),
     Some (Parte.mk (Py.strip legajo) (Py.strip periodo) BORRADOR
             None None None None)).
Proof.
  intros Hnone.
  unfold Db.get_or_create_parte, Db.get_parte, Db.insert_parte_do_nothing in *.
  destruct (existsb _ (Db.partes db)) eqn:E.
  - apply existsb_find_parte in E. contradiction.
  - rewrite select_parte_app_absent by exact Hnone.
    unfold Db.select_parte, Db.parte_is; simpl.
    rewrite !String.eqb_refl. reflexivity.
Qed.

(** C4.  [get_or_create_parte] returns the stored row of the key when there
    is one and leaves the store as it is; otherwise it appends one row in
    BORRADOR whose four optional columns are null and returns it.  A second
    call returns the same row and changes nothing, and no history of calls
    from the empty store ever holds two rows of one key. *)
Theorem get_or_create_parte_idempotent :
  forall db legajo periodo,
    let nuevo :=
      Parte.mk (Py.strip legajo) (Py.strip periodo) BORRADOR None None None None in
    (forall row,
        Db.get_parte db legajo periodo = Some row ->
        Db.get_or_create_parte db legajo periodo = (db, Some row))
    /\ (Db.get_parte db legajo periodo = None ->
        Db.get_or_create_parte db legajo periodo
        = (Db.with_partes db (Db.partes db ++ [nuevo]), Some nuevo))
    /\ (forall db1 r1,
        Db.get_or_create_parte db legajo periodo = (db1, r1) ->
        r1 <> None /\ Db.get_or_create_parte db1 legajo periodo = (db1, r1))
    /\ (forall calls, unique_partes (Db.partes (run Db.empty calls))).
Proof.
  intros db legajo periodo nuevo.
  split; [apply get_or_create_found|].
  split; [apply get_or_create_absent|]. split.
  - intros db1 r1 H.
    destruct (Db.get_parte db legajo periodo) as [row|] eqn:Hrow.
    + rewrite (get_or_create_found _ _ _ Hrow) in H. inversion H; subst.
      split; [discriminate | apply get_or_create_found, Hrow].
    + rewrite (get_or_create_absent _ _ _ Hrow) in H. inversion H; subst.
      split; [discriminate|]. apply get_or_create_found.
      unfold Db.get_parte in *; simpl.
      rewrite select_parte_app_absent by exact Hrow.
      unfold Db.select_parte, Db.parte_is; simpl.
      rewrite !String.eqb_refl. reflexivity.
  - intros calls. apply unique_run. constructor.
Qed.

Lemma get_parte_update db legajo periodo e sa aa ab rc :
  Db.get_parte (Db.update_parte_estado db legajo periodo e sa aa ab rc)
    legajo periodo
  = option_map (Db.set_estado e sa aa ab rc) (Db.get_parte db legajo periodo).
Proof. unfold Db.get_parte; simpl. apply select_after_update. Qed.

(** C9.  [update_parte_estado] read back on its key: [submitted_at],
    [approved_at] and [approved_by_legajo] take the argument when it is not
    null and keep the stored value when it is; [rejection_comment] takes the
    argument, null included.  Through any later calls the three columns,
    once they hold a value, hold one. *)
Theorem update_parte_estado_coalesce :
  forall db legajo periodo row,
    Db.get_parte db legajo periodo = Some row ->
    (forall e sa aa ab rc,
        Db.get_parte (Db.update_parte_estado db legajo periodo e sa aa ab rc)
          legajo periodo
        = Some (Parte.mk (Parte.legajo row) (Parte.periodo_yyyymm row) e
                  (match sa with Some v => Some v | None => Parte.submitted_at row end)
                  (match aa with Some v => Some v | None => Parte.approved_at row end)
                  (match ab with Some v => Some v | None => Parte.approved_by_legajo row end)
                  rc))
    /\ (forall calls, exists row',
           Db.get_parte (run db calls) legajo periodo = Some row'
           /\ keeps_set row row').
Proof.
  intros db legajo periodo row Hrow. split.
  - intros e sa aa ab rc. unfold Db.get_parte in *; simpl.
    rewrite select_after_update, Hrow. reflexivity.
  - intros calls. apply get_parte_run. exact Hrow.
Qed.

End Partes.

(** ** The personnel table *)

Section Personal.

Implicit Types (db : Db.t) (tbl : list Persona.t) (r new : Persona.t).

Lemma persona_known k tbl :
  existsb (Db.persona_is k) tbl = true <-> In k (map Persona.legajo tbl).
Proof.
  rewrite existsb_exists, in_map_iff. unfold Db.persona_is.
  split; intros [x [H1 H2]]; exists x.
  - apply String.eqb_eq in H2. auto.
  - split; [exact H2 | apply String.eqb_eq; exact H1].
Qed.


Lemma insert_absent new tbl :
  existsb (Db.persona_is (Persona.legajo new)) tbl = false ->
  Db.insert_or_update_persona new tbl = tbl ++ [new].
Proof.
  induction tbl as [|x tbl IH]; simpl; [reflexivity|].
  destruct (Db.persona_is (Persona.legajo new) x); simpl; [discriminate|].
  intros H. rewrite IH by exact H. reflexivity.
Qed.

Lemma insert_present_keys new tbl :
  existsb (Db.persona_is (Persona.legajo new)) tbl = true ->
  map Persona.legajo (Db.insert_or_update_persona new tbl)
  = map Persona.legajo tbl.
Proof.
  induction tbl as [|x tbl IH]; simpl; [discriminate|].
  destruct (Db.persona_is (Persona.legajo new) x) eqn:E; simpl.
  - intros _. apply String.eqb_eq in E. rewrite E. reflexivity.
  - intros H. rewrite IH by exact H. reflexivity.
Qed.







End Personal.

(** ** Whitespace *)

Section Strip.

Lemma sp2_head c1 c2 : Py.sp2 c1 c2 = true -> Py.sp1 c1 = false.
Proof.
  unfold Py.sp2, Py.sp1. intros H.
  apply andb_true_iff in H. destruct H as [H _].
  apply N.eqb_eq in H. rewrite H. reflexivity.
Qed.

Lemma sp3_head c1 c2 c3 :
  Py.sp3 c1 c2 c3 = true -> Py.sp1 c1 = false /\ Py.sp2 c1 c2 = false.
Proof.
  unfold Py.sp3, Py.sp2, Py.sp1. intros H.
  repeat (apply orb_true_iff in H; destruct H as [H|H]);
    repeat (apply andb_true_iff in H; destruct H as [H ?]);
    apply N.eqb_eq in H; rewrite H; split; reflexivity.
Qed.

Lemma lstrip_whitespace_only l :
  whitespace_only l -> Py.lstrip_bytes l = [].
Proof.
  unfold Py.lstrip_bytes.
  induction 1 as [|c l Hc _ IH|c1 c2 l Hc _ IH|c1 c2 c3 l Hc _ IH]; simpl.
  - reflexivity.
  - rewrite Hc. exact IH.
  - rewrite (sp2_head _ _ Hc), Hc. exact IH.
  - destruct (sp3_head _ _ _ Hc) as [H1 H2]. rewrite H1, H2, Hc. exact IH.
Qed.

Lemma strip_whitespace_only s :
  whitespace_only (list_ascii_of_string s) -> Py.strip s = "".
Proof.
  intros H. unfold Py.strip. rewrite (lstrip_whitespace_only H). reflexivity.
Qed.

Lemma graphic_not_space c :
  graphic c = true ->
  Py.sp1 c = false
  /\ (forall x, Py.sp2 c x = false /\ Py.sp2 x c = false)
  /\ (forall x y, Py.sp3 c x y = false /\ Py.sp3 y x c = false).
Proof.
  unfold graphic, Py.sp1, Py.sp2, Py.sp3. intros H.
  apply andb_true_iff in H. destruct H as [H1 H2].
  apply N.ltb_lt in H1. apply N.ltb_lt in H2.
  repeat split;
    repeat match goal with
           | |- context [N.eqb ?a ?b] => destruct (N.eqb_spec a b)
           | |- context [N.leb ?a ?b] => destruct (N.leb_spec a b)
           end; simpl; try reflexivity; lia.
Qed.

Lemma drop_front_keeps p1 p2 p3 c rest :
  p1 c = false -> (forall x, p2 c x = false) -> (forall x y, p3 c x y = false) ->
  Py.drop_front p1 p2 p3 (c :: rest) = c :: rest.
Proof.
  intros H1 H2 H3. simpl. rewrite H1.
  destruct rest as [|x [|y rest]]; [reflexivity| |]; rewrite H2;
    [reflexivity|]. rewrite H3. reflexivity.
Qed.

Lemma all_graphic_forall s :
  all_graphic s = true ->
  Forall (fun c => graphic c = true) (list_ascii_of_string s).
Proof.
  induction s as [|c s IH]; simpl; intros H; [constructor|].
  apply andb_true_iff in H. destruct H as [Hc Hs].
  constructor; [exact Hc | apply IH, Hs].
Qed.

(** A text of printable characters without spaces is its own [strip()]. *)
Lemma strip_graphic s : all_graphic s = true -> Py.strip s = s.
Proof.
  intros H. apply all_graphic_forall in H. unfold Py.strip.
  rewrite <- (string_of_list_ascii_of_string s) at 2. f_equal.
  set (l := list_ascii_of_string s) in *.
  assert (Hl : Py.lstrip_bytes l = l).
  { destruct l as [|c rest]; [reflexivity|].
    inversion H as [|? ? Hc _]; subst.
    destruct (graphic_not_space _ Hc) as (H1 & H2 & H3).
    apply drop_front_keeps; [exact H1 | apply H2 | apply H3]. }
  rewrite Hl. unfold Py.rstrip_bytes.
  apply Forall_rev in H.
  destruct (rev l) as [|c rest] eqn:E.
  - rewrite <- (rev_involutive l), E. reflexivity.
  - inversion H as [|? ? Hc _]; subst.
    destruct (graphic_not_space _ Hc) as (H1 & H2 & H3).
    rewrite drop_front_keeps; [|exact H1|apply H2|apply H3].
    rewrite <- E. apply rev_involutive.
Qed.

Lemma all_graphic_app a b :
  all_graphic (a ++ b) = all_graphic a && all_graphic b.
Proof.
  induction a as [|c a IH]; simpl; [reflexivity|].
  rewrite IH, andb_assoc. reflexivity.
Qed.

Lemma all_graphic_uint d : all_graphic (NilEmpty.string_of_uint d) = true.
Proof. induction d; simpl; auto. Qed.

Lemma all_graphic_zeros k : all_graphic (Py.zeros k) = true.
Proof. induction k; simpl; auto. Qed.

Lemma all_graphic_format w n : all_graphic (Py.format_0d w n) = true.
Proof.
  unfold Py.format_0d, Py.decimal. destruct (n <? 0)%Z;
    rewrite ?all_graphic_app, ?all_graphic_zeros, ?all_graphic_uint;
    reflexivity.
Qed.

Lemma strip_isoformat d : Py.strip (Py.isoformat d) = Py.isoformat d.
Proof.
  apply strip_graphic. unfold Py.isoformat.
  rewrite !all_graphic_app, !all_graphic_format. reflexivity.
Qed.

End Strip.

(** ** The two pages *)

Section Pages.

Implicit Types (db : Db.t) (row : Parte.t) (df edited : list GridRow.t).

Lemma items_update_parte_estado db l p e sa aa ab rc :
  Db.items (Db.update_parte_estado db l p e sa aa ab rc) = Db.items db.
Proof. reflexivity. Qed.

Lemma get_parte_save db legajo y m df l p :
  Db.get_parte (App.save_month_df_as_items db legajo y m df) l p
  = Db.get_parte db l p.
Proof.
  unfold App.save_month_df_as_items, Db.get_parte,
    Db.insert_items, Db.delete_items_for_dates.
  destruct (App.month_df_items legajo df); destruct (map GridRow.Fecha df);
    reflexivity.
Qed.

(** The store after [save_month_df_as_items]: the rows kept, then the rows
    added. *)
Lemma items_save db legajo y m df :
  Db.items (App.save_month_df_as_items db legajo y m df)
  = filter (fun it => negb (replaced legajo df it)) (Db.items db)
    ++ map Db.item_params (App.month_df_items legajo df).
Proof.
  unfold App.save_month_df_as_items, replaced,
    Db.insert_items, Db.delete_items_for_dates.
  destruct df as [|r df].
  - simpl. rewrite app_nil_r. symmetry. apply forallb_filter_id.
    apply forallb_forall. intros it _. unfold Db.item_in_dates. simpl.
    rewrite andb_false_r. reflexivity.
  - destruct (App.month_df_items legajo (r :: df)); simpl;
      [rewrite app_nil_r|]; reflexivity.
Qed.

Lemma row_items_legajo legajo r it :
  In it (App.row_items legajo r) ->
  Item.legajo it = legajo /\ Item.fecha it = GridRow.Fecha r.
Proof.
  unfold App.row_items. rewrite !in_app_iff, in_flat_map.
  intros [[t [_ H]]|[H|H]].
  - destruct (App.row_flag t r); [destruct H as [<-|[]]; auto | destruct H].
  - destruct (_ <? _)%float; [destruct H as [<-|[]]; auto | destruct H].
  - destruct (_ <? _)%float; [destruct H as [<-|[]]; auto | destruct H].
Qed.

Lemma month_df_items_replaced legajo df :
  fechas_stripped df ->
  forallb (replaced legajo df)
    (map Db.item_params (App.month_df_items legajo df)) = true.
Proof.
  intros Hs. apply forallb_forall. intros it Hit.
  apply in_map_iff in Hit. destruct Hit as [it0 [<- Hit0]].
  unfold App.month_df_items in Hit0. apply in_flat_map in Hit0.
  destruct Hit0 as [r [Hr Hit0]].
  destruct (row_items_legajo _ _ _ Hit0) as [Hl Hf].
  unfold replaced, Db.item_in_dates, Db.item_params; simpl.
  rewrite Hl, Hf, String.eqb_refl. simpl.
  apply existsb_exists. exists (GridRow.Fecha r).
  split; [apply in_map, Hr|].
  unfold fechas_stripped in Hs. rewrite Forall_forall in Hs.
  rewrite (Hs r Hr). apply String.eqb_refl.
Qed.

Lemma filter_none {A : Type} (f : A -> bool) (l : list A) :
  forallb (fun x => negb (f x)) l = true -> filter f l = [].
Proof.
  induction l as [|x l IH]; simpl; [reflexivity|].
  destruct (f x); simpl; [discriminate | exact IH].
Qed.

(** After a save the employee's rows on the dates of the frame are the
    ones made from the frame. *)
Lemma save_replaces db legajo y m df :
  fechas_stripped df ->
  filter (replaced legajo df)
    (Db.items (App.save_month_df_as_items db legajo y m df))
  = map Db.item_params (App.month_df_items legajo df).
Proof.
  intros Hs. rewrite items_save, filter_app.
  rewrite filter_none.
  - simpl. apply forallb_filter_id. apply month_df_items_replaced, Hs.
  - apply forallb_forall. intros it Hit. apply filter_In in Hit. tauto.
Qed.


Lemma items_get_or_create db l p :
  Db.items (fst (Db.get_or_create_parte db l p)) = Db.items db.
Proof. reflexivity. Qed.


(** C1, as the code has it.  From an editable state, "Guardar borrador"
    leaves as the employee's rows on the dates of the frame the ones made
    from the frame, and writes BORRADOR as the state with a null rejection
    comment, the other columns of the timesheet kept: from BORRADOR the
    state stays, from RECHAZADO it goes back to BORRADOR. *)
Theorem guardar_borrador_sets_borrador :
  forall now db legajo y m edited row,
    Db.get_parte db legajo (App.yyyymm_from_year_month y m) = Some row ->
    App.can_edit (Parte.estado row) = true ->
    fechas_stripped edited ->
    exists db',
      App.page_empleado now db legajo y m edited App.Guardar_borrador
      = (db', App.st_success "Guardado.")
      /\ filter (replaced legajo edited) (Db.items db')
         = map Db.item_params (App.month_df_items legajo edited)
      /\ Db.get_parte db' legajo (App.yyyymm_from_year_month y m)
         = Some (Parte.mk (Parte.legajo row) (Parte.periodo_yyyymm row) BORRADOR
                   (Parte.submitted_at row) (Parte.approved_at row)
                   (Parte.approved_by_legajo row) None).
Proof.
  intros now db legajo y m edited row Hrow Hedit Hs.
  unfold App.page_empleado.
  rewrite (get_or_create_found _ _ _ Hrow), Hedit.
  eexists. split; [reflexivity|]. split.
  - rewrite items_update_parte_estado. apply save_replaces, Hs.
  - rewrite get_parte_update, get_parte_save, Hrow. reflexivity.
Qed.


(** C3.  On a timesheet in ENVIADO, "Confirmar rechazo" with a comment that
    is empty or whitespace only shows the error and leaves the store as it
    was; with any other comment the timesheet goes to RECHAZADO, the
    stripped comment and the leader's legajo stored, nothing else
    changed. *)
Theorem confirmar_rechazo_requires_comment :
  forall now db user_legajo legajo_sel periodo_sel comment row,
    Db.get_parte db legajo_sel periodo_sel = Some row ->
    Parte.estado row = ENVIADO ->
    (whitespace_only (list_ascii_of_string comment) -> Py.strip comment = "")
    /\ (Py.strip comment = "" ->
        App.page_lider now db user_legajo legajo_sel periodo_sel
          (App.Confirmar_rechazo comment)
        = (db, App.st_error "El comentario es obligatorio."))
    /\ (Py.strip comment <> "" ->
        exists db',
          App.page_lider now db user_legajo legajo_sel periodo_sel
            (App.Confirmar_rechazo comment)
          = (db', App.st_success "Rechazado.")
          /\ Db.get_parte db' legajo_sel periodo_sel
             = Some (Parte.mk (Parte.legajo row) (Parte.periodo_yyyymm row)
                       RECHAZADO (Parte.submitted_at row) (Parte.approved_at row)
                       (Some user_legajo) (Some (Py.strip comment)))
          /\ Db.items db' = Db.items db
          /\ Db.personal db' = Db.personal db).
Proof.
  intros now db user_legajo legajo_sel periodo_sel comment row Hrow _.
  split; [apply strip_whitespace_only|]. split; intros Hc; simpl.
  - rewrite Hc. reflexivity.
  - apply String.eqb_neq in Hc. rewrite Hc.
    eexists. split; [reflexivity|].
    rewrite get_parte_update, Hrow. repeat split.
Qed.

End Pages.

(** ** The empty month *)

Section Month.

Local Open Scope Z_scope.

Lemma isleap_leap_year y : Py.isleap y = leap_year y.
Proof.
  unfold Py.isleap, leap_year.
  destruct (Z.eqb_spec (y mod 4) 0) as [H4|H4];
    destruct (Z.eqb_spec (y mod 100) 0) as [H100|H100];
    destruct (Z.eqb_spec (y mod 400) 0) as [H400|H400];
    try reflexivity; exfalso;
    revert H4 H100 H400; Z.div_mod_to_equations; lia.
Qed.

Lemma monthrange_days_in_month y m :
  1 <= m <= 12 ->
  Py.monthrange_ndays y m = Ok (days_in_month y m).
Proof.
  intros Hm. unfold Py.monthrange_ndays, days_in_month.
  rewrite isleap_leap_year.
  assert (E : m = 1 \/ m = 2 \/ m = 3 \/ m = 4 \/ m = 5 \/ m = 6 \/ m = 7
              \/ m = 8 \/ m = 9 \/ m = 10 \/ m = 11 \/ m = 12) by lia.
  repeat (destruct E as [E|E]); subst m; simpl; try reflexivity.
  destruct (leap_year y); reflexivity.
Qed.

Lemma days_in_month_bounds y m : 28 <= days_in_month y m <= 31.
Proof.
  unfold days_in_month.
  destruct (m =? 2); [destruct (leap_year y); lia|].
  destruct (_ || _)%bool; lia.
Qed.

Lemma date_new_ok y m d :
  1 <= y <= 9999 -> Py.date_new y m d = Ok (Py.mk_date y m d).
Proof.
  intros Hy. unfold Py.date_new.
  destruct (Z.leb_spec 1 y); [|lia].
  destruct (Z.leb_spec y 9999); [|lia].
  reflexivity.
Qed.

Lemma comprehension_dates y m l :
  1 <= y <= 9999 ->
  App.comprehension (fun d => Py.date_new y m d) l
  = Ok (map (Py.mk_date y m) l).
Proof.
  intros Hy. induction l as [|d l IH]; simpl; [reflexivity|].
  rewrite date_new_ok by exact Hy. simpl. rewrite IH. reflexivity.
Qed.

Lemma month_dates_ok y m :
  1 <= y <= 9999 -> 1 <= m <= 12 ->
  App.month_dates y m
  = Ok (map (Py.mk_date y m) (App.range 1 (days_in_month y m + 1))).
Proof.
  intros Hy Hm. unfold App.month_dates, App.month_bounds.
  rewrite monthrange_days_in_month by exact Hm. simpl.
  rewrite !date_new_ok by exact Hy. simpl.
  apply comprehension_dates, Hy.
Qed.

Lemma length_range a b : List.length (App.range a b) = Z.to_nat (b - a).
Proof. unfold App.range. rewrite length_map, length_seq. reflexivity. Qed.

Lemma in_range a b d : In d (App.range a b) <-> a <= d < b.
Proof.
  unfold App.range. rewrite in_map_iff. split.
  - intros [i [<- Hi]]. apply in_seq in Hi. lia.
  - intros Hd. exists (Z.to_nat (d - a)). split; [lia|].
    apply in_seq. lia.
Qed.

Lemma build_month_df_ok y m :
  1 <= y <= 9999 -> 1 <= m <= 12 ->
  App.build_month_df y m
  = Ok (map (fun d => GridRow.mk (Py.isoformat (Py.mk_date y m d))
                        false false false false 0%float 0%float (Some ""%string))
            (App.range 1 (days_in_month y m + 1))).
Proof.
  intros Hy Hm. unfold App.build_month_df.
  rewrite month_dates_ok by assumption. simpl. rewrite map_map. reflexivity.
Qed.

(** C6.  For a year of the calendar and a month from 1 to 12,
    [build_month_df] returns one row per day of the month, in order, 29
    for February of a leap year, 28 otherwise, 30 or 31 for the other
    months; every row has its four flags false, both numbers zero and the
    empty comment. *)
Theorem build_month_df_rows :
  forall y m,
    1 <= y <= 9999 -> 1 <= m <= 12 ->
    exists df,
      App.build_month_df y m = Ok df
      /\ Z.of_nat (List.length df) = days_in_month y m
      /\ map GridRow.Fecha df
         = map (fun d => Py.isoformat (Py.mk_date y m d))
             (App.range 1 (days_in_month y m + 1))
      /\ Forall blank_row df.
Proof.
  intros y m Hy Hm. eexists. split; [apply build_month_df_ok; assumption|].
  pose proof (days_in_month_bounds y m) as Hb.
  split; [|split].
  - rewrite length_map, length_range. lia.
  - rewrite map_map. reflexivity.
  - apply Forall_forall. intros r Hr. apply in_map_iff in Hr.
    destruct Hr as [d [<- _]]. repeat split.
Qed.

End Month.

(** ** Items to grid and back *)

Section RoundTrip.

Implicit Types (it : Item.t) (r row : GridRow.t) (d : App.Day)
  (by_date : list (string * list Item.t)).


Lemma by_date_get_setdefault f it by_date f' :
  App.by_date_get (App.setdefault_append f it by_date) f'
  = if String.eqb f f' then App.by_date_get by_date f' ++ [it]
    else App.by_date_get by_date f'.
Proof.
  unfold App.by_date_get.
  induction by_date as [|[k lst] rest IH]; simpl.
  - destruct (String.eqb f f'); reflexivity.
  - destruct (String.eqb_spec k f) as [->|Hk]; simpl.
    + destruct (String.eqb f f'); reflexivity.
    + destruct (String.eqb_spec k f') as [->|Hk']; [|exact IH].
      destruct (String.eqb_spec f f') as [->|_]; [congruence | reflexivity].
Qed.

Lemma by_date_get_fold items_rows : forall by_date f,
  App.by_date_get
    (fold_left (fun bd it => App.setdefault_append (Item.fecha it) it bd)
       items_rows by_date) f
  = App.by_date_get by_date f
    ++ filter (fun it => String.eqb (Item.fecha it) f) items_rows.
Proof.
  induction items_rows as [|it rest IH]; intros by_date f; simpl.
  - rewrite app_nil_r. reflexivity.
  - rewrite IH, by_date_get_setdefault.
    destruct (String.eqb (Item.fecha it) f);
      [rewrite <- app_assoc|]; reflexivity.
Qed.

(** The list a date is given: the items of that date, in their order. *)
Lemma by_date_get_group items_rows f :
  App.by_date_get (App.group_by_date items_rows) f
  = filter (fun it => String.eqb (Item.fecha it) f) items_rows.
Proof. unfold App.group_by_date. rewrite by_date_get_fold. reflexivity. Qed.

(** What the per-day loop computes from the locals [d]. *)
Lemma day_fold lst : forall d,
  let d' := fold_left App.day_step lst d in
  App.flag_G d' = App.flag_G d || existsb (is_tipo G) lst
  /\ App.flag_F d' = App.flag_F d || existsb (is_tipo F) lst
  /\ App.flag_D d' = App.flag_D d || existsb (is_tipo D) lst
  /\ App.flag_HO d' = App.flag_HO d || existsb (is_tipo HO) lst
  /\ App.hv d' = fold_left add_valor (filter (is_tipo HV) lst) (App.hv d)
  /\ App.he d' = fold_left add_valor (filter (is_tipo HE) lst) (App.he d).
Proof.
  induction lst as [|it lst IH]; intros d; simpl.
  - rewrite !orb_false_r. repeat split.
  - specialize (IH (App.day_step d it)). simpl in IH.
    destruct IH as (HG & HF & HD & HHO & HHV & HHE).
    rewrite HG, HF, HD, HHO, HHV, HHE.
    unfold App.day_step, is_tipo, add_valor.
    destruct (Item.tipo it);
      destruct (App.comentario_truthy (Item.comentario it) && _);
      simpl; rewrite ?orb_true_r, ?orb_true_l, ?orb_false_r;
      repeat split; reflexivity.
Qed.

Lemma existsb_filter {A : Type} (f g : A -> bool) (l : list A) :
  existsb f (filter g l) = existsb (fun x => g x && f x) l.
Proof.
  induction l as [|x l IH]; simpl; [reflexivity|].
  destruct (g x); simpl; rewrite IH; reflexivity.
Qed.

Lemma filter_filter {A : Type} (f g : A -> bool) (l : list A) :
  filter f (filter g l) = filter (fun x => g x && f x) l.
Proof.
  induction l as [|x l IH]; simpl; [reflexivity|].
  destruct (g x); simpl; [destruct (f x)|]; rewrite IH; reflexivity.
Qed.

(** The cells [fill_row] writes, from the whole list of items. *)
Lemma fill_row_cells items_rows row :
  let r := App.fill_row (App.group_by_date items_rows) row in
  GridRow.Fecha r = GridRow.Fecha row
  /\ (forall t, In t App.TIPOS_DIA ->
        App.row_flag t r = existsb (on_day t (GridRow.Fecha row)) items_rows)
  /\ GridRow.HV r = total HV (GridRow.Fecha row) items_rows
  /\ GridRow.HE r = total HE (GridRow.Fecha row) items_rows.
Proof.
  unfold App.fill_row. rewrite by_date_get_group.
  destruct (day_fold
              (filter (fun it => String.eqb (Item.fecha it) (GridRow.Fecha row))
                 items_rows) App.day_init)
    as (HG & HF & HD & HHO & HHV & HHE).
  simpl in *. rewrite existsb_filter in HG, HF, HD, HHO.
  rewrite filter_filter in HHV, HHE.
  split; [reflexivity|]. split; [|split; assumption].
  intros t [<-|[<-|[<-|[<-|[]]]]]; simpl; assumption.
Qed.

Lemma float_add_zero_l x :
  PrimFloat.eqb x 0%float = false -> (0 + x)%float = x.
Proof.
  intros H. apply Prim2SF_inj. rewrite add_spec.
  rewrite eqb_spec in H.
  change (Prim2SF 0) with (S754_zero false) in *.
  destruct (Prim2SF x) as [s| s| |s m e]; try reflexivity.
  destruct s; discriminate H.
Qed.

Lemma float_pos_nonzero x :
  PrimFloat.ltb 0 x = true -> PrimFloat.eqb x 0 = false.
Proof.
  rewrite ltb_spec, eqb_spec.
  change (Prim2SF 0) with (S754_zero false).
  destruct (Prim2SF x) as [s| s| |s m e]; try reflexivity; try discriminate;
    destruct s; reflexivity.
Qed.

(** [float(x or 0.0) > 0] holds exactly when [x > 0], and then [x or 0.0]
    is [x]. *)
Lemma float_or_zero_pos x :
  (0 <? Py.float_or_zero x)%float = (0 <? x)%float
  /\ ((0 <? x)%float = true -> Py.float_or_zero x = x).
Proof.
  unfold Py.float_or_zero, Py.float_truthy.
  destruct (PrimFloat.eqb x 0) eqn:E; simpl; [|auto].
  destruct (0 <? x)%float eqn:L.
  - apply float_pos_nonzero in L. congruence.
  - split; [reflexivity | discriminate].
Qed.

Lemma in_row_items legajo r o :
  In o (App.row_items legajo r) <->
  (exists t, In t App.TIPOS_DIA /\ App.row_flag t r = true
             /\ o = Item.mk legajo (GridRow.Fecha r) t (Some "1") None
                      (App.row_comentario r))
  \/ ((0 <? GridRow.HV r)%float = true
      /\ o = Item.mk legajo (GridRow.Fecha r) HV None (Some (GridRow.HV r))
               (App.row_comentario r))
  \/ ((0 <? GridRow.HE r)%float = true
      /\ o = Item.mk legajo (GridRow.Fecha r) HE None (Some (GridRow.HE r))
               (App.row_comentario r)).
Proof.
  unfold App.row_items. rewrite !in_app_iff, in_flat_map.
  destruct (float_or_zero_pos (GridRow.HV r)) as [Ev Hv].
  destruct (float_or_zero_pos (GridRow.HE r)) as [Ee He].
  rewrite Ev, Ee.
  split.
  - intros [[t [Ht H]]|[H|H]].
    + left. exists t. destruct (App.row_flag t r); [|destruct H].
      destruct H as [<-|[]]. auto.
    + right. left. destruct (0 <? GridRow.HV r)%float; [|destruct H].
      destruct H as [<-|[]]. rewrite Hv by reflexivity. auto.
    + right. right. destruct (0 <? GridRow.HE r)%float; [|destruct H].
      destruct H as [<-|[]]. rewrite He by reflexivity. auto.
  - intros [[t [Ht [Hf ->]]]|[[Hp ->]|[Hp ->]]].
    + left. exists t. rewrite Hf. split; [exact Ht | left; reflexivity].
    + right. left. rewrite Hp, Hv by exact Hp. left. reflexivity.
    + right. right. rewrite Hp, He by exact Hp. left. reflexivity.
Qed.



Lemma append_inj_l (a x y : string) : (a ++ x = a ++ y)%string -> x = y.
Proof.
  induction a as [|c a IH]; simpl; intros H; [exact H|].
  inversion H. auto.
Qed.

Lemma format_day_inj (d1 d2 : Z) :
  (1 <= d1 <= 31)%Z -> (1 <= d2 <= 31)%Z ->
  Py.format_0d 2 d1 = Py.format_0d 2 d2 -> d1 = d2.
Proof.
  intros H1 H2 E.
  assert (C : forallb
                (fun a => forallb
                            (fun b => implb (String.eqb (Py.format_0d 2 a)
                                                        (Py.format_0d 2 b))
                                            (Z.eqb a b))
                            (App.range 1 32))
                (App.range 1 32) = true) by (vm_compute; reflexivity).
  rewrite forallb_forall in C.
  specialize (C d1 (proj2 (in_range 1 32 d1) ltac:(lia))).
  rewrite forallb_forall in C.
  specialize (C d2 (proj2 (in_range 1 32 d2) ltac:(lia))).
  rewrite E, String.eqb_refl in C. simpl in C.
  apply Z.eqb_eq. exact C.
Qed.

Lemma NoDup_range a b : NoDup (App.range a b).
Proof.
  unfold App.range. apply NoDup_map_NoDup_ForallPairs; [|apply seq_NoDup].
  intros i j _ _ H. lia.
Qed.

Lemma NoDup_month_fechas y m : NoDup (month_fechas y m).
Proof.
  unfold month_fechas.
  apply NoDup_map_NoDup_ForallPairs; [|apply NoDup_range].
  intros k1 k2 H1 H2 E.
  apply in_range in H1. apply in_range in H2.
  pose proof (days_in_month_bounds y m) as Hb.
  unfold Py.isoformat in E; simpl in E.
  apply append_inj_l in E. inversion E as [E1].
  apply append_inj_l in E1. inversion E1 as [E2].
  apply format_day_inj; [lia | lia | exact E2].
Qed.

(** [items_to_month_df] on a year of the calendar and a month from 1 to 12:
    the rows of the month, each filled from the items of its date. *)
Lemma items_to_month_df_ok items_rows y m :
  (1 <= y <= 9999)%Z -> (1 <= m <= 12)%Z ->
  App.items_to_month_df items_rows y m
  = Ok (map (filled_row items_rows) (month_fechas y m)).
Proof.
  intros Hy Hm. unfold App.items_to_month_df, month_fechas, filled_row, blank.
  rewrite build_month_df_ok by assumption. simpl.
  rewrite !map_map. destruct items_rows; reflexivity.
Qed.




Lemma filled_row_cells items_rows f :
  GridRow.Fecha (filled_row items_rows f) = f
  /\ (forall t, In t App.TIPOS_DIA ->
        App.row_flag t (filled_row items_rows f)
        = existsb (on_day t f) items_rows)
  /\ GridRow.HV (filled_row items_rows f) = total HV f items_rows
  /\ GridRow.HE (filled_row items_rows f) = total HE f items_rows.
Proof. apply (fill_row_cells items_rows (blank f)). Qed.




(** The frame the editor shows, and so the one it returns, has the dates
    of the month: they carry no surrounding whitespace. *)
Lemma month_fechas_stripped y m edited :
  map GridRow.Fecha edited = month_fechas y m -> fechas_stripped edited.
Proof.
  intros H. unfold fechas_stripped. apply Forall_forall. intros r Hr.
  apply (in_map GridRow.Fecha) in Hr. rewrite H in Hr.
  unfold month_fechas in Hr. apply in_map_iff in Hr.
  destruct Hr as [k [<- _]]. apply strip_isoformat.
Qed.

End RoundTrip.

(** ** The master import *)

Section MasterImport.

Variable lower : string -> string.
Variable json_dumps : list (string * ExcelIo.value) -> string.

Lemma dict_get_set {V : Type} k (v : V) d k' :
  ExcelIo.dict_get (ExcelIo.dict_set k v d) k'
  = if String.eqb k k' then Some v else ExcelIo.dict_get d k'.
Proof.
  induction d as [|[k0 v0] d IH]; simpl.
  - destruct (String.eqb k k'); reflexivity.
  - destruct (String.eqb_spec k0 k) as [->|Hk]; simpl.
    + destruct (String.eqb k k'); reflexivity.
    + destruct (String.eqb_spec k0 k') as [->|Hk']; [|exact IH].
      destruct (String.eqb_spec k k') as [->|_]; [congruence | reflexivity].
Qed.

Lemma norm_get_none cols : forall d k,
  ExcelIo.dict_get d k = None ->
  (forall c, In c cols -> ExcelIo.norm_key lower c <> k) ->
  ExcelIo.dict_get
    (fold_left (fun d c => ExcelIo.dict_set (ExcelIo.norm_key lower c) c d) cols d)
    k = None.
Proof.
  induction cols as [|c cols IH]; intros d k Hd Hc; simpl; [exact Hd|].
  apply IH.
  - rewrite dict_get_set.
    destruct (String.eqb_spec (ExcelIo.norm_key lower c) k) as [E|_];
      [|exact Hd].
    exfalso. apply (Hc c); [left; reflexivity | exact E].
  - intros c' Hc'. apply Hc. right. exact Hc'.
Qed.

Lemma norm_get_some cols : forall d k,
  ExcelIo.dict_get d k <> None
  \/ (exists c, In c cols /\ ExcelIo.norm_key lower c = k) ->
  ExcelIo.dict_get
    (fold_left (fun d c => ExcelIo.dict_set (ExcelIo.norm_key lower c) c d) cols d)
    k <> None.
Proof.
  induction cols as [|c cols IH]; intros d k H; simpl.
  - destruct H as [H|[c [[] _]]]. exact H.
  - apply IH. rewrite dict_get_set.
    destruct (String.eqb_spec (ExcelIo.norm_key lower c) k) as [E|E].
    + left. discriminate.
    + destruct H as [H|[c' [[<-|Hc'] Hk]]]; [left; exact H | contradiction |].
      right. exists c'. auto.
Qed.

(** A field one of whose spellings is a header is found. *)
Lemma col_header_found cols aliases c a :
  In c cols -> In a aliases ->
  ExcelIo.norm_key lower c = ExcelIo.norm_key lower a ->
  ExcelIo._col lower cols aliases <> None.
Proof.
  unfold ExcelIo._col. intros Hc Ha E.
  induction aliases as [|a' aliases IH]; [destruct Ha|]. simpl.
  destruct (ExcelIo.dict_get _ (ExcelIo.norm_key lower a')) eqn:G;
    [discriminate|].
  destruct Ha as [->|Ha]; [|apply IH, Ha].
  exfalso. revert G. apply norm_get_some. right. exists c. auto.
Qed.

(** A field none of whose spellings is a header is not found. *)
Lemma col_no_header cols aliases :
  no_header lower cols aliases -> ExcelIo._col lower cols aliases = None.
Proof.
  unfold no_header, ExcelIo._col. intros H.
  induction aliases as [|a aliases IH]; simpl; [reflexivity|].
  rewrite norm_get_none.
  - apply IH. intros c a' Hc Ha'. apply H; [exact Hc | right; exact Ha'].
  - reflexivity.
  - intros c Hc. apply H; [exact Hc | left; reflexivity].
Qed.

Lemma join_mentions sep parts x :
  In x parts -> mentions (Py.join sep parts) x.
Proof.
  unfold mentions. induction parts as [|p parts IH]; intros Hx; [destruct Hx|].
  destruct Hx as [->|Hx].
  - destruct parts as [|q parts].
    + exists "", "". simpl. clear. induction x; simpl; congruence.
    + exists "", (sep ++ Py.join sep (q :: parts))%string. reflexivity.
  - destruct (IH Hx) as [before [after E]].
    destruct parts as [|q parts]; [destruct Hx|].
    exists (p ++ sep ++ before)%string, after.
    change (Py.join sep (p :: q :: parts))
      with (p ++ sep ++ Py.join sep (q :: parts))%string.
    rewrite E. clear.
    induction p; simpl; [|congruence].
    induction sep; simpl; congruence.
Qed.

Lemma mentions_prefix pre msg x : mentions msg x -> mentions (pre ++ msg) x.
Proof.
  intros [before [after ->]]. exists (pre ++ before)%string, after.
  induction pre; simpl; congruence.
Qed.

Lemma missing_label_absent cols aliases label :
  no_header lower cols aliases ->
  ExcelIo.missing_label (ExcelIo._col lower cols aliases) label = [label].
Proof.
  intros H. rewrite (col_no_header H). reflexivity.
Qed.

Lemma general_sheet_find xls df :
  general_sheet lower xls = Some df ->
  exists name,
    find (fun s => String.eqb (lower (Py.strip (fst s))) "general") xls
    = Some (name, df).
Proof.
  unfold general_sheet.
  destruct (find _ xls) as [[name df']|]; simpl; [|discriminate].
  intros H. inversion H; subst. exists name. reflexivity.
Qed.

(** C7.  When a "General" sheet lacks a header for one or more of legajo,
    CUIL, nombre and leader under every accepted spelling, the import
    raises the error whose message lists the missing fields, and the
    message names each field that has no header, whichever the others. *)
Theorem import_maestro_general_missing_columns :
  forall xls df,
    general_sheet lower xls = Some df ->
    no_header lower (map Py.strip (ExcelIo.columns df)) ALIAS_LEGAJO
    \/ no_header lower (map Py.strip (ExcelIo.columns df)) ALIAS_CUIL
    \/ no_header lower (map Py.strip (ExcelIo.columns df)) ALIAS_NOMBRE
    \/ no_header lower (map Py.strip (ExcelIo.columns df)) ALIAS_LEADER ->
    exists missing msg,
      msg = ("Faltan columnas requeridas en 'General': "
             ++ Py.join ", " missing)%string
      /\ ExcelIo.import_maestro_general lower json_dumps xls
         = Raise (ValueError msg)
      /\ (no_header lower (map Py.strip (ExcelIo.columns df)) ALIAS_LEGAJO ->
          In LABEL_LEGAJO missing /\ mentions msg LABEL_LEGAJO)
      /\ (no_header lower (map Py.strip (ExcelIo.columns df)) ALIAS_CUIL ->
          In LABEL_CUIL missing /\ mentions msg LABEL_CUIL)
      /\ (no_header lower (map Py.strip (ExcelIo.columns df)) ALIAS_NOMBRE ->
          In LABEL_NOMBRE missing /\ mentions msg LABEL_NOMBRE)
      /\ (no_header lower (map Py.strip (ExcelIo.columns df)) ALIAS_LEADER ->
          In LABEL_LEADER missing /\ mentions msg LABEL_LEADER).
Proof.
  intros xls df Hsheet Hsome.
  destruct (general_sheet_find _ Hsheet) as [name Hfind].
  set (cols := map Py.strip (ExcelIo.columns df)) in *.
  exists (ExcelIo.missing_label (ExcelIo._col lower cols ALIAS_LEGAJO) LABEL_LEGAJO
          ++ ExcelIo.missing_label (ExcelIo._col lower cols ALIAS_CUIL) LABEL_CUIL
          ++ ExcelIo.missing_label (ExcelIo._col lower cols ALIAS_NOMBRE) LABEL_NOMBRE
          ++ ExcelIo.missing_label (ExcelIo._col lower cols ALIAS_LEADER) LABEL_LEADER).
  eexists. split; [reflexivity|]. split.
  - unfold ExcelIo.import_maestro_general. rewrite Hfind. fold cols.
    change ["Legajo"; "Legajo Clear"; "LegajoClear"] with ALIAS_LEGAJO.
    change ["CUIL"] with ALIAS_CUIL.
    change ["Nombre y Apellido"; "Nombre"; "Apellido y Nombre"] with ALIAS_NOMBRE.
    change ["leader_legajo"; "Lider"; "Líder"; "Jefe"; "leader"] with ALIAS_LEADER.
    cbv zeta.
    destruct (ExcelIo.truthy_col (ExcelIo._col lower cols ALIAS_LEGAJO)) eqn:T1;
      [|reflexivity].
    destruct (ExcelIo.truthy_col (ExcelIo._col lower cols ALIAS_CUIL)) eqn:T2;
      [|reflexivity].
    destruct (ExcelIo.truthy_col (ExcelIo._col lower cols ALIAS_NOMBRE)) eqn:T3;
      [|reflexivity].
    destruct (ExcelIo.truthy_col (ExcelIo._col lower cols ALIAS_LEADER)) eqn:T4;
      [|reflexivity].
    exfalso.
    destruct Hsome as [H|[H|[H|H]]]; rewrite (col_no_header H) in *;
      discriminate.
  - repeat split; try (apply mentions_prefix, join_mentions);
      rewrite (missing_label_absent _ H); rewrite !in_app_iff; simpl; auto.
Qed.



End MasterImport.

(** ** The properties on the sample data *)

Lemma get_or_create_parte_idempotent_witness :
  Db.get_or_create_parte ej_db " 5478" "202402" = (ej_db, Some ej_parte_rechazado)
  /\ Db.get_or_create_parte Db.empty " 5478" "202402"
     = (Db.mk [] [Parte.mk "5478" "202402" BORRADOR None None None None] [],
        Some (Parte.mk "5478" "202402" BORRADOR None None None None)).
Proof.
  split.
  - apply (proj1 (@get_or_create_parte_idempotent ej_db " 5478" "202402")).
    reflexivity.
  - apply (proj1 (proj2 (@get_or_create_parte_idempotent Db.empty " 5478" "202402"))).
    reflexivity.
Defined.

Lemma update_parte_estado_coalesce_witness :
  Db.get_parte
    (Db.update_parte_estado ej_db "5478" "202402" ENVIADO
       (Some "2024-03-05 08:00:00") None None None)
    "5478" "202402"
  = Some (Parte.mk "5478" "202402" ENVIADO (Some "2024-03-05 08:00:00") None
            (Some "5483") None).
Proof.
  exact (proj1 (@update_parte_estado_coalesce ej_db "5478" "202402"
                  ej_parte_rechazado eq_refl)
           ENVIADO (Some "2024-03-05 08:00:00") None None None).
Defined.



Lemma ej_grid_stripped : fechas_stripped ej_grid.
Proof. repeat constructor. Qed.

(** C1 as the claim has it fails: the sample timesheet is in RECHAZADO,
    and after "Guardar borrador" it is in BORRADOR. *)
Lemma guardar_borrador_from_rechazado_counterexample :
  option_map Parte.estado (Db.get_parte ej_db "5478" "202402") = Some RECHAZADO
  /\ App.can_edit RECHAZADO = true
  /\ App.yyyymm_from_year_month 2024 2 = "202402"
  /\ option_map Parte.estado
       (Db.get_parte
          (fst (App.page_empleado "2024-03-05 08:00:00" ej_db "5478" 2024 2
                  ej_grid App.Guardar_borrador))
          "5478" "202402")
     = Some BORRADOR.
Proof. repeat split. Qed.

Lemma guardar_borrador_sets_borrador_witness :
  exists db',
    App.page_empleado "2024-03-05 08:00:00" ej_db "5478" 2024 2 ej_grid
      App.Guardar_borrador
    = (db', App.st_success "Guardado.")
    /\ filter (replaced "5478" ej_grid) (Db.items db')
       = map Db.item_params (App.month_df_items "5478" ej_grid)
    /\ Db.get_parte db' "5478" (App.yyyymm_from_year_month 2024 2)
       = Some (Parte.mk "5478" "202402" BORRADOR (Some "2024-03-01 12:00:00")
                 None (Some "5483") None).
Proof.
  exact (@guardar_borrador_sets_borrador "2024-03-05 08:00:00" ej_db "5478"
           2024%Z 2%Z ej_grid ej_parte_rechazado
           eq_refl eq_refl ej_grid_stripped).
Defined.


Lemma confirmar_rechazo_requires_comment_witness :
  App.page_lider "2024-03-05 08:00:00" ej_db "5483" "5479" "202402"
    (App.Confirmar_rechazo "   ")
  = (ej_db, App.st_error "El comentario es obligatorio.")
  /\ exists db',
       App.page_lider "2024-03-05 08:00:00" ej_db "5483" "5479" "202402"
         (App.Confirmar_rechazo " missing receipts ")
       = (db', App.st_success "Rechazado.")
       /\ Db.get_parte db' "5479" "202402"
          = Some (Parte.mk "5479" "202402" RECHAZADO (Some "2024-03-02 09:30:00")
                    None (Some "5483") (Some "missing receipts"))
       /\ Db.items db' = Db.items ej_db
       /\ Db.personal db' = Db.personal ej_db.
Proof.
  split.
  - apply (proj1 (proj2 (@confirmar_rechazo_requires_comment
                           "2024-03-05 08:00:00" ej_db "5483" "5479" "202402"
                           "   " ej_parte_enviado eq_refl eq_refl))).
    reflexivity.
  - apply (proj2 (proj2 (@confirmar_rechazo_requires_comment
                           "2024-03-05 08:00:00" ej_db "5483" "5479" "202402"
                           " missing receipts " ej_parte_enviado
                           eq_refl eq_refl))).
    discriminate.
Defined.

Lemma build_month_df_rows_witness :
  exists df,
    App.build_month_df 2024 2 = Ok df
    /\ Z.of_nat (List.length df) = 29%Z
    /\ map GridRow.Fecha df
       = map (fun d => Py.isoformat (Py.mk_date 2024 2 d)) (App.range 1 30)
    /\ Forall blank_row df.
Proof.
  apply (@build_month_df_rows 2024%Z 2%Z); lia.
Defined.


Lemma ej_sin_lider_no_header :
  no_header lower_ascii (map Py.strip (ExcelIo.columns ej_sheet_sin_lider))
    ALIAS_LEADER.
Proof.
  intros c a Hc Ha. simpl in Hc, Ha.
  repeat (destruct Hc as [<-|Hc]; [|try contradiction]);
    repeat (destruct Ha as [<-|Ha]; [|try contradiction]);
    vm_compute; discriminate.
Qed.

Lemma import_maestro_general_missing_columns_witness :
  exists missing msg,
    ExcelIo.import_maestro_general lower_ascii ej_dumps ej_xls_sin_lider
    = Raise (ValueError msg)
    /\ In LABEL_LEADER missing
    /\ mentions msg LABEL_LEADER.
Proof.
  destruct (@import_maestro_general_missing_columns lower_ascii ej_dumps
              ej_xls_sin_lider ej_sheet_sin_lider eq_refl
              (or_intror (or_intror (or_intror ej_sin_lider_no_header))))
    as (missing & msg & _ & H & _ & _ & _ & H4).
  exists missing, msg. split; [exact H | apply H4, ej_sin_lider_no_header].
Defined.


(* ================================================================== *)
(** * Further properties *)

(** ** [strip] once is enough *)

Section StripTwice.

Variables (p1 : ascii -> bool) (p2 : ascii -> ascii -> bool)
  (p3 : ascii -> ascii -> ascii -> bool).

Local Abbreviation drop := (Py.drop_front p1 p2 p3).

Lemma drop_front_eq l :
  drop l
  = match l with
    | [] => []
    | c1 :: t1 =>
      if p1 c1 then drop t1
      else match t1 with
           | [] => l
           | c2 :: t2 =>
             if p2 c1 c2 then drop t2
             else match t2 with
                  | [] => l
                  | c3 :: t3 => if p3 c1 c2 c3 then drop t3 else l
                  end
           end
    end.
Proof. destruct l; reflexivity. Qed.

(** What [drop_front] returns is an end of its argument from which it
    drops nothing more. *)
Lemma drop_front_spec : forall n l,
  List.length l <= n ->
  (exists pre, l = pre ++ drop l) /\ drop (drop l) = drop l.
Proof.
  induction n as [|n IH]; intros l Hl.
  - destruct l; [split; [exists []|]; reflexivity | simpl in Hl; lia].
  - rewrite (drop_front_eq l).
    destruct l as [|c1 t1]; [split; [exists []|]; reflexivity|].
    simpl in Hl.
    destruct (p1 c1) eqn:E1.
    { destruct (IH t1) as [[pre E] I]; [lia|]. split; [|exact I].
      exists (c1 :: pre). simpl. f_equal. exact E. }
    destruct t1 as [|c2 t2].
    { split; [exists []; reflexivity|].
      rewrite drop_front_eq, E1. reflexivity. }
    simpl in Hl.
    destruct (p2 c1 c2) eqn:E2.
    { destruct (IH t2) as [[pre E] I]; [lia|]. split; [|exact I].
      exists (c1 :: c2 :: pre). simpl. do 2 f_equal. exact E. }
    destruct t2 as [|c3 t3].
    { split; [exists []; reflexivity|].
      rewrite drop_front_eq, E1, E2. reflexivity. }
    simpl in Hl.
    destruct (p3 c1 c2 c3) eqn:E3.
    { destruct (IH t3) as [[pre E] I]; [lia|]. split; [|exact I].
      exists (c1 :: c2 :: c3 :: pre). simpl. do 3 f_equal. exact E. }
    split; [exists []; reflexivity|].
    rewrite drop_front_eq, E1, E2, E3. reflexivity.
Qed.

Lemma drop_front_idem l : drop (drop l) = drop l.
Proof. apply (drop_front_spec (n := List.length l)). lia. Qed.

Lemma drop_front_suffix l : exists pre, l = pre ++ drop l.
Proof. apply (drop_front_spec (n := List.length l)). lia. Qed.

Lemma drop_front_shorter l : List.length (drop l) <= List.length l.
Proof.
  destruct (drop_front_suffix l) as [pre E].
  rewrite E at 2. rewrite length_app. lia.
Qed.

(** A beginning of a list that has nothing to drop has nothing to drop. *)
Lemma drop_front_prefix a b : drop (a ++ b) = a ++ b -> drop a = a.
Proof.
  intros H. rewrite drop_front_eq in H. rewrite drop_front_eq.
  destruct a as [|c1 a1]; [reflexivity|].
  change ((c1 :: a1) ++ b) with (c1 :: (a1 ++ b)) in H.
  cbv iota beta in H.
  destruct (p1 c1).
  { pose proof (drop_front_shorter (a1 ++ b)) as L.
    rewrite H in L. simpl in L. lia. }
  destruct a1 as [|c2 a2]; [reflexivity|].
  change ((c2 :: a2) ++ b) with (c2 :: (a2 ++ b)) in H.
  cbv iota beta in H.
  destruct (p2 c1 c2).
  { pose proof (drop_front_shorter (a2 ++ b)) as L.
    rewrite H in L. simpl in L. lia. }
  destruct a2 as [|c3 a3]; [reflexivity|].
  change ((c3 :: a3) ++ b) with (c3 :: (a3 ++ b)) in H.
  cbv iota beta in H.
  destruct (p3 c1 c2 c3); [|reflexivity].
  pose proof (drop_front_shorter (a3 ++ b)) as L.
  rewrite H in L. simpl in L. lia.
Qed.

End StripTwice.

Lemma strip_idem s : Py.strip (Py.strip s) = Py.strip s.
Proof.
  unfold Py.strip. rewrite list_ascii_of_string_of_list_ascii. f_equal.
  set (a := Py.lstrip_bytes (list_ascii_of_string s)).
  assert (Ha : Py.lstrip_bytes a = a) by apply drop_front_idem.
  unfold Py.rstrip_bytes at 2.
  set (b' := Py.drop_front Py.sp1 (fun x y => Py.sp2 y x)
               (fun x y z => Py.sp3 z y x) (rev a)).
  destruct (drop_front_suffix Py.sp1 (fun x y => Py.sp2 y x)
              (fun x y z => Py.sp3 z y x) (rev a))
    as [pre E]. fold b' in E.
  assert (Hab : a = rev b' ++ rev pre)
    by (rewrite <- rev_app_distr, <- E, rev_involutive; reflexivity).
  assert (Hb : Py.lstrip_bytes (rev b') = rev b').
  { unfold Py.lstrip_bytes in *. rewrite Hab in Ha.
    apply drop_front_prefix in Ha. exact Ha. }
  rewrite Hb. unfold Py.rstrip_bytes. rewrite rev_involutive. f_equal.
  apply drop_front_idem.
Qed.

(** ** The workflow, step after step *)

Section Workflow.

Implicit Types (db : Db.t) (row : Parte.t) (edited : list GridRow.t).

Lemma get_parte_same_key db l p l' p' :
  Py.strip l = Py.strip l' -> Py.strip p = Py.strip p' ->
  Db.get_parte db l p = Db.get_parte db l' p'.
Proof. unfold Db.get_parte. intros -> ->. reflexivity. Qed.

Lemma can_edit_states e :
  App.can_edit e = false <-> e = ENVIADO \/ e = APROBADO.
Proof.
  destruct e; simpl; split; intros H;
    solve [ discriminate | auto | destruct H; discriminate ].
Qed.

Lemma page_empleado_not_editable now db legajo y m edited boton row :
  Db.get_parte db legajo (App.yyyymm_from_year_month y m) = Some row ->
  App.can_edit (Parte.estado row) = false ->
  App.page_empleado now db legajo y m edited boton
  = (db, App.st_caption "Edición deshabilitada por estado del parte.").
Proof.
  intros Hrow He. unfold App.page_empleado.
  rewrite (get_or_create_found _ _ _ Hrow), He. reflexivity.
Qed.

(** X1.  A timesheet in ENVIADO or APROBADO is closed to the employee's
    page: whatever the frame and the button, the store stays as it is. *)
Theorem page_empleado_locked :
  forall now db legajo y m edited boton row,
    Db.get_parte db legajo (App.yyyymm_from_year_month y m) = Some row ->
    Parte.estado row = ENVIADO \/ Parte.estado row = APROBADO ->
    App.page_empleado now db legajo y m edited boton
    = (db, App.st_caption "Edición deshabilitada por estado del parte.").
Proof.
  intros now db legajo y m edited boton row Hrow He.
  apply page_empleado_not_editable with (row := row); [exact Hrow|].
  apply can_edit_states, He.
Qed.

(** X2.  "Enviar a aprobación" from an editable state replaces the items
    as a save does, writes ENVIADO with the time of the click, clears the
    rejection comment and keeps the approval columns; from then on the
    employee's page changes nothing. *)
Theorem enviar_a_aprobacion_locks :
  forall now db legajo y m edited row,
    Db.get_parte db legajo (App.yyyymm_from_year_month y m) = Some row ->
    App.can_edit (Parte.estado row) = true ->
    fechas_stripped edited ->
    exists db1,
      App.page_empleado now db legajo y m edited App.Enviar_a_aprobacion
      = (db1, App.st_success "Enviado a aprobación. Queda bloqueado.")
      /\ Db.get_parte db1 legajo (App.yyyymm_from_year_month y m)
         = Some (Parte.mk (Parte.legajo row) (Parte.periodo_yyyymm row) ENVIADO
                   (Some now) (Parte.approved_at row)
                   (Parte.approved_by_legajo row) None)
      /\ filter (replaced legajo edited) (Db.items db1)
         = map Db.item_params (App.month_df_items legajo edited)
      /\ (forall now' edited' boton',
            App.page_empleado now' db1 legajo y m edited' boton'
            = (db1, App.st_caption "Edición deshabilitada por estado del parte.")).
Proof.
  intros now db legajo y m edited row Hrow Hedit Hs.
  unfold App.page_empleado at 1.
  rewrite (get_or_create_found _ _ _ Hrow), Hedit.
  eexists. split; [reflexivity|].
  assert (Hget : Db.get_parte
                   (Db.update_parte_estado
                      (App.save_month_df_as_items db legajo y m edited)
                      legajo (App.yyyymm_from_year_month y m) ENVIADO
                      (Some now) None None None)
                   legajo (App.yyyymm_from_year_month y m)
                 = Some (Parte.mk (Parte.legajo row) (Parte.periodo_yyyymm row)
                           ENVIADO (Some now) (Parte.approved_at row)
                           (Parte.approved_by_legajo row) None))
    by (rewrite get_parte_update, get_parte_save, Hrow; reflexivity).
  split; [exact Hget|]. split.
  - rewrite items_update_parte_estado. apply save_replaces, Hs.
  - intros now' edited' boton'.
    eapply page_empleado_not_editable; [exact Hget | reflexivity].
Qed.

(** X3.  "Aprobar" on a stored timesheet writes APROBADO, the time of the
    click and the leader's legajo, clears the rejection comment and keeps
    the submission time; items, personnel and the other timesheets stay
    as they are, and the employee's page is closed on it afterwards. *)
Theorem aprobar_sets_aprobado :
  forall now db user_legajo legajo_sel periodo_sel row,
    Db.get_parte db legajo_sel periodo_sel = Some row ->
    exists db1,
      App.page_lider now db user_legajo legajo_sel periodo_sel App.Aprobar
      = (db1, App.st_success "Aprobado.")
      /\ Db.get_parte db1 legajo_sel periodo_sel
         = Some (Parte.mk (Parte.legajo row) (Parte.periodo_yyyymm row) APROBADO
                   (Parte.submitted_at row) (Some now) (Some user_legajo) None)
      /\ Db.items db1 = Db.items db
      /\ Db.personal db1 = Db.personal db
      /\ (forall l p,
            (Py.strip l, Py.strip p) <> (Py.strip legajo_sel, Py.strip periodo_sel) ->
            Db.get_parte db1 l p = Db.get_parte db l p)
      /\ (forall now' legajo y m edited boton,
            Py.strip legajo = Py.strip legajo_sel ->
            Py.strip (App.yyyymm_from_year_month y m) = Py.strip periodo_sel ->
            App.page_empleado now' db1 legajo y m edited boton
            = (db1, App.st_caption "Edición deshabilitada por estado del parte.")).
Proof.
  intros now db user_legajo legajo_sel periodo_sel row Hrow.
  eexists. split; [reflexivity|].
  assert (Hget : Db.get_parte
                   (Db.update_parte_estado db legajo_sel periodo_sel APROBADO
                      None (Some now) (Some user_legajo) None)
                   legajo_sel periodo_sel
                 = Some (Parte.mk (Parte.legajo row) (Parte.periodo_yyyymm row)
                           APROBADO (Parte.submitted_at row) (Some now)
                           (Some user_legajo) None))
    by (rewrite get_parte_update, Hrow; reflexivity).
  split; [exact Hget|]. split; [reflexivity|]. split; [reflexivity|]. split.
  - intros l p Hne. unfold Db.get_parte; simpl.
    apply select_after_update_other. exact Hne.
  - intros now' legajo y m edited boton Hl Hp.
    eapply page_empleado_not_editable;
      [rewrite (get_parte_same_key _ _ _ _ _ Hl Hp); exact Hget | reflexivity].
Qed.

(** X4.  A rejected timesheet can be sent again: after a rejection with a
    comment, "Enviar a aprobación" writes ENVIADO with the new time and a
    null rejection comment, and the legajo of the leader who rejected it
    stays in [approved_by_legajo]. *)
Theorem rechazo_then_enviar :
  forall now1 now2 db user_legajo legajo y m comment edited row,
    Db.get_parte db legajo (App.yyyymm_from_year_month y m) = Some row ->
    Py.strip comment <> "" ->
    Db.get_parte
      (fst (App.page_empleado now2
              (fst (App.page_lider now1 db user_legajo legajo
                      (App.yyyymm_from_year_month y m)
                      (App.Confirmar_rechazo comment)))
              legajo y m edited App.Enviar_a_aprobacion))
      legajo (App.yyyymm_from_year_month y m)
    = Some (Parte.mk (Parte.legajo row) (Parte.periodo_yyyymm row) ENVIADO
              (Some now2) (Parte.approved_at row) (Some user_legajo) None).
Proof.
  intros now1 now2 db user_legajo legajo y m comment edited row Hrow Hc.
  apply String.eqb_neq in Hc. simpl. rewrite Hc. simpl.
  set (db1 := Db.update_parte_estado db legajo
                (App.yyyymm_from_year_month y m) RECHAZADO None None
                (Some user_legajo) (Some (Py.strip comment))).
  assert (H1 : Db.get_parte db1 legajo (App.yyyymm_from_year_month y m)
               = Some (Parte.mk (Parte.legajo row) (Parte.periodo_yyyymm row)
                         RECHAZADO (Parte.submitted_at row)
                         (Parte.approved_at row) (Some user_legajo)
                         (Some (Py.strip comment))))
    by (unfold db1; rewrite get_parte_update, Hrow; reflexivity).
  unfold App.page_empleado.
  rewrite (get_or_create_found _ _ _ H1). simpl.
  rewrite get_parte_update, get_parte_save, H1. reflexivity.
Qed.

Lemma map_unchanged {A : Type} (f : A -> A) (g : A -> bool) (l : list A) :
  existsb g l = false ->
  map (fun x => if g x then f x else x) l = l.
Proof.
  induction l as [|x l IH]; simpl; [reflexivity|].
  destruct (g x); simpl; [discriminate|].
  intros H. rewrite IH by exact H. reflexivity.
Qed.

(** X5.  [update_parte_estado] on a key with no row leaves the store as
    it is, so a decision of the leader on such a key changes nothing; on
    any key it leaves the rows of the other keys, the items and the
    personnel as they are and adds no row. *)
Theorem update_parte_estado_other_keys :
  forall db legajo periodo e sa aa ab rc,
    (Db.get_parte db legajo periodo = None ->
     Db.update_parte_estado db legajo periodo e sa aa ab rc = db
     /\ forall now user_legajo,
          fst (App.page_lider now db user_legajo legajo periodo App.Aprobar) = db)
    /\ (forall l p,
          (Py.strip l, Py.strip p) <> (Py.strip legajo, Py.strip periodo) ->
          Db.get_parte (Db.update_parte_estado db legajo periodo e sa aa ab rc) l p
          = Db.get_parte db l p)
    /\ map parte_key
         (Db.partes (Db.update_parte_estado db legajo periodo e sa aa ab rc))
       = map parte_key (Db.partes db)
    /\ Db.items (Db.update_parte_estado db legajo periodo e sa aa ab rc)
       = Db.items db
    /\ Db.personal (Db.update_parte_estado db legajo periodo e sa aa ab rc)
       = Db.personal db.
Proof.
  intros db legajo periodo e sa aa ab rc.
  assert (Hnone : forall e' sa' aa' ab' rc',
             Db.get_parte db legajo periodo = None ->
             Db.update_parte_estado db legajo periodo e' sa' aa' ab' rc' = db).
  { intros e' sa' aa' ab' rc' H. unfold Db.update_parte_estado, Db.get_parte in *.
    rewrite map_unchanged; [apply with_partes_same|].
    destruct (existsb _ _) eqn:E; [|reflexivity].
    apply existsb_find_parte in E. contradiction. }
  split; [|split; [|split; [|split]]].
  - intros H. split; [apply Hnone, H|].
    intros now user_legajo. simpl. apply Hnone, H.
  - intros l p Hne. unfold Db.get_parte; simpl.
    apply select_after_update_other. exact Hne.
  - simpl. apply keys_after_update.
  - reflexivity.
  - reflexivity.
Qed.

End Workflow.

(** ** The leader's pending list *)

Section Pending.

Variable collate : string -> string -> bool.

Implicit Types (db : Db.t) (row p : Parte.t) (per : Persona.t)
  (r : Db.pendiente).

Lemma in_insert_by {A : Type} (le : A -> A -> bool) (x y : A) (l : list A) :
  In x (Py.insert_by le y l) <-> x = y \/ In x l.
Proof.
  induction l as [|z l IH]; simpl; [intuition congruence|].
  destruct (le y z); simpl; [intuition congruence|].
  rewrite IH. intuition congruence.
Qed.

Lemma in_sort_by {A : Type} (le : A -> A -> bool) (x : A) (l : list A) :
  In x (Py.sort_by le l) <-> In x l.
Proof.
  induction l as [|y l IH]; simpl; [tauto|].
  rewrite in_insert_by, IH. intuition congruence.
Qed.

Lemma Estado_eqb_eq a b : Estado_eqb a b = true <-> a = b.
Proof. destruct a, b; simpl; split; (discriminate || reflexivity). Qed.

(** Who is in the list: the timesheets in ENVIADO of the persons whose
    leader is the one asked for. *)
Lemma in_pendientes db leader r :
  In r (Db.list_pendientes_para_lider collate db leader)
  <-> exists p per,
        In p (Db.partes db) /\ In per (Db.personal db)
        /\ Persona.legajo per = Parte.legajo p
        /\ Parte.estado p = ENVIADO
        /\ Persona.leader_legajo per = Py.strip leader
        /\ r = Db.mk_pendiente (Parte.legajo p) (Persona.nombre per)
                 (Parte.periodo_yyyymm p) (Parte.estado p)
                 (Parte.submitted_at p).
Proof.
  unfold Db.list_pendientes_para_lider. rewrite in_sort_by, in_flat_map.
  split.
  - intros [p [Hp H]]. apply in_flat_map in H. destruct H as [per [Hper H]].
    destruct (String.eqb_spec (Persona.legajo per) (Parte.legajo p)) as [E1|];
      [|destruct H].
    destruct (Estado_eqb (Parte.estado p) ENVIADO) eqn:E2; [|destruct H].
    destruct (String.eqb_spec (Persona.leader_legajo per) (Py.strip leader))
      as [E3|]; [|destruct H].
    destruct H as [<-|[]]. apply Estado_eqb_eq in E2.
    exists p, per. auto 10.
  - intros (p & per & Hp & Hper & E1 & E2 & E3 & ->).
    exists p. split; [exact Hp|]. apply in_flat_map. exists per.
    split; [exact Hper|].
    rewrite E1, E2, E3, !String.eqb_refl. simpl. left. reflexivity.
Qed.

Lemma find_parte_in (l k : string) tbl row :
  Db.select_parte l k tbl = Some row ->
  In row tbl /\ parte_key row = (l, k).
Proof.
  unfold Db.select_parte. intros H. apply find_some in H.
  destruct H as [Hin Hk]. apply parte_is_key in Hk. auto.
Qed.

Lemma find_persona_in k tbl per :
  find (Db.persona_is k) tbl = Some per ->
  In per tbl /\ Persona.legajo per = k.
Proof.
  intros H. apply find_some in H. destruct H as [Hin Hk].
  unfold Db.persona_is in Hk. apply String.eqb_eq in Hk. auto.
Qed.

Lemma personal_page_empleado now db legajo y m edited boton :
  Db.personal (fst (App.page_empleado now db legajo y m edited boton))
  = Db.personal db.
Proof.
  unfold App.page_empleado.
  destruct (Db.get_or_create_parte db legajo (App.yyyymm_from_year_month y m))
    as [db0 parte] eqn:E.
  assert (H0 : Db.personal db0 = Db.personal db)
    by (unfold Db.get_or_create_parte in E; inversion E; reflexivity).
  assert (Hs : Db.personal (App.save_month_df_as_items db0 legajo y m edited)
               = Db.personal db0).
  { unfold App.save_month_df_as_items, Db.insert_items, Db.delete_items_for_dates.
    destruct (App.month_df_items legajo edited); destruct (map GridRow.Fecha edited);
      reflexivity. }
  destruct parte as [row|]; [destruct (App.can_edit (Parte.estado row))|];
    simpl; try exact H0; destruct boton; simpl; congruence.
Qed.

(** X6.  After "Enviar a aprobación" the timesheet is in the pending list
    of the leader the personnel table gives the employee, with the
    employee's name and the time of the click. *)
Theorem enviar_reaches_leader :
  forall now db legajo y m edited row per leader,
    Db.get_parte db legajo (App.yyyymm_from_year_month y m) = Some row ->
    App.can_edit (Parte.estado row) = true ->
    Db.get_person_by_legajo db legajo = Some per ->
    Persona.leader_legajo per = Py.strip leader ->
    In (Db.mk_pendiente (Py.strip legajo) (Persona.nombre per)
          (Py.strip (App.yyyymm_from_year_month y m)) ENVIADO (Some now))
       (Db.list_pendientes_para_lider collate
          (fst (App.page_empleado now db legajo y m edited
                  App.Enviar_a_aprobacion))
          leader).
Proof.
  intros now db legajo y m edited row per leader Hrow Hedit Hper Hlead.
  apply in_pendientes.
  pose proof (personal_page_empleado now db legajo y m edited
                App.Enviar_a_aprobacion) as Hpers.
  assert (Hget : Db.get_parte
                   (fst (App.page_empleado now db legajo y m edited
                           App.Enviar_a_aprobacion))
                   legajo (App.yyyymm_from_year_month y m)
                 = Some (Parte.mk (Parte.legajo row) (Parte.periodo_yyyymm row)
                           ENVIADO (Some now) (Parte.approved_at row)
                           (Parte.approved_by_legajo row) None)).
  { unfold App.page_empleado.
    rewrite (get_or_create_found _ _ _ Hrow), Hedit. simpl.
    rewrite get_parte_update, get_parte_save, Hrow. reflexivity. }
  destruct (find_parte_in _ _ _ Hrow) as [_ Hk].
  unfold parte_key in Hk. inversion Hk as [[Hk1 Hk2]].
  unfold Db.get_parte in Hget. apply find_parte_in in Hget.
  destruct Hget as [Hin _].
  unfold Db.get_person_by_legajo in Hper. apply find_persona_in in Hper.
  destruct Hper as [Hpin Hpk].
  eexists. exists per. split; [exact Hin|]. rewrite Hpers.
  split; [exact Hpin|]. simpl. rewrite Hk1, Hk2.
  repeat split; auto.
Qed.

(** X7.  After a decision of the leader, approval or rejection with a
    comment, the timesheet is in nobody's pending list, and every list
    holds, of the other timesheets, what it held. *)
Theorem decision_leaves_pending_list :
  forall now db user_legajo legajo_sel periodo_sel boton,
    boton = App.Aprobar
    \/ (exists comment,
          boton = App.Confirmar_rechazo comment /\ Py.strip comment <> "") ->
    forall leader r,
      In r (Db.list_pendientes_para_lider collate
              (fst (App.page_lider now db user_legajo legajo_sel periodo_sel
                      boton))
              leader)
      <-> In r (Db.list_pendientes_para_lider collate db leader)
          /\ (Db.pe_legajo r, Db.pe_periodo_yyyymm r)
             <> (Py.strip legajo_sel, Py.strip periodo_sel).
Proof.
  intros now db user_legajo legajo_sel periodo_sel boton Hb leader r.
  assert (Hupd : exists e sa aa ab rc,
             e <> ENVIADO
             /\ fst (App.page_lider now db user_legajo legajo_sel periodo_sel
                       boton)
                = Db.update_parte_estado db legajo_sel periodo_sel e sa aa ab rc).
  { destruct Hb as [->|[comment [-> Hc]]].
    - exists APROBADO. do 4 eexists. split; [discriminate | reflexivity].
    - exists RECHAZADO. do 4 eexists. split; [discriminate|].
      simpl. apply String.eqb_neq in Hc. rewrite Hc. reflexivity. }
  destruct Hupd as (e & sa & aa & ab & rc & He & ->).
  rewrite !in_pendientes. simpl. split.
  - intros (p & per & Hp & Hper & E1 & E2 & E3 & ->).
    apply in_map_iff in Hp. destruct Hp as [x [Hx Hxin]].
    destruct (Db.parte_is (Py.strip legajo_sel) (Py.strip periodo_sel) x) eqn:K.
    + subst p. simpl in E2. congruence.
    + subst p. split; [exists x, per; auto 10|].
      simpl. intros Hk.
      assert (Db.parte_is (Py.strip legajo_sel) (Py.strip periodo_sel) x = true)
        by (apply parte_is_key; exact Hk).
      congruence.
  - intros [(p & per & Hp & Hper & E1 & E2 & E3 & ->) Hk]. simpl in Hk.
    exists p, per. split; [|auto 10].
    apply in_map_iff. exists p. split; [|exact Hp].
    destruct (Db.parte_is (Py.strip legajo_sel) (Py.strip periodo_sel) p) eqn:K;
      [|reflexivity].
    apply parte_is_key in K. contradiction.
Qed.

End Pending.

(** ** The personnel table, batch after batch *)

Section PersonalMore.

Implicit Types (db : Db.t) (tbl : list Persona.t) (r new : Persona.t).

Lemma upsert_step_fst st r :
  fst (Db.upsert_step st r)
  = Db.insert_or_update_persona (Db.persona_params r) (fst st).
Proof. destruct st as [tbl [i u]]. reflexivity. Qed.

Lemma insert_length new tbl :
  List.length (Db.insert_or_update_persona new tbl)
  = List.length tbl
    + (if existsb (Db.persona_is (Persona.legajo new)) tbl then 0 else 1).
Proof.
  induction tbl as [|x tbl IH]; simpl; [reflexivity|].
  destruct (Db.persona_is (Persona.legajo new) x); simpl; [lia|].
  rewrite IH. reflexivity.
Qed.

Lemma upsert_fold_totals rows : forall tbl i u,
  let st := fold_left Db.upsert_step rows (tbl, (i, u)) in
  fst (snd st) + snd (snd st) = i + u + List.length rows
  /\ List.length (fst st) + i = List.length tbl + fst (snd st).
Proof.
  induction rows as [|r rows IH]; intros tbl i u; simpl; [lia|].
  specialize (IH (Db.insert_or_update_persona (Db.persona_params r) tbl)
                (i + (if existsb (Db.persona_is (Py.strip (Persona.legajo r))) tbl
                      then 0 else 1))
                (u + (if existsb (Db.persona_is (Py.strip (Persona.legajo r))) tbl
                      then 1 else 0))).
  simpl in IH. destruct IH as [H1 H2].
  rewrite insert_length in H2. simpl in H2.
  destruct (existsb (Db.persona_is (Py.strip (Persona.legajo r))) tbl); lia.
Qed.

(** X8.  Whatever the batch, the two counts [upsert_personal_rows] returns
    add up to the number of records, the table grows by the number counted
    as inserted, and timesheets and items are not touched. *)
Theorem upsert_personal_rows_totals :
  forall db rows,
    fst (snd (Db.upsert_personal_rows db rows))
    + snd (snd (Db.upsert_personal_rows db rows))
    = List.length rows
    /\ List.length (Db.personal (fst (Db.upsert_personal_rows db rows)))
       = List.length (Db.personal db)
         + fst (snd (Db.upsert_personal_rows db rows))
    /\ Db.partes (fst (Db.upsert_personal_rows db rows)) = Db.partes db
    /\ Db.items (fst (Db.upsert_personal_rows db rows)) = Db.items db.
Proof.
  intros db rows. unfold Db.upsert_personal_rows.
  pose proof (upsert_fold_totals rows (Db.personal db) 0 0) as H.
  destruct (fold_left Db.upsert_step rows (Db.personal db, (0, 0)))
    as [tbl [i u]].
  simpl in *. repeat split; lia.
Qed.





Lemma insert_keys_unique new tbl :
  NoDup (map Persona.legajo tbl) ->
  NoDup (map Persona.legajo (Db.insert_or_update_persona new tbl)).
Proof.
  intros H.
  destruct (existsb (Db.persona_is (Persona.legajo new)) tbl) eqn:E.
  - rewrite insert_present_keys by exact E. exact H.
  - rewrite insert_absent by exact E. rewrite map_app. simpl.
    apply NoDup_app; [exact H | repeat constructor; intros [] |].
    intros k Hin [<-|[]].
    apply persona_known in Hin. congruence.
Qed.

Lemma upsert_fold_unique rows : forall st,
  NoDup (map Persona.legajo (fst st)) ->
  NoDup (map Persona.legajo (fst (fold_left Db.upsert_step rows st))).
Proof.
  induction rows as [|r rows IH]; intros st H; simpl; [exact H|].
  apply IH. rewrite upsert_step_fst. apply insert_keys_unique, H.
Qed.

Lemma personal_exec_unique db c :
  NoDup (map Persona.legajo (Db.personal db)) ->
  NoDup (map Persona.legajo (Db.personal (exec db c))).
Proof.
  intros H. destruct c as [rows| | |l fs|its]; simpl; try exact H.
  - unfold Db.upsert_personal_rows.
    pose proof (upsert_fold_unique rows (Db.personal db, (0, 0)) H) as H'.
    destruct (fold_left Db.upsert_step rows (Db.personal db, (0, 0)))
      as [tbl c]. exact H'.
  - destruct fs; exact H.
  - destruct its; exact H.
Qed.

(** X10.  The primary key holds through every history: whatever calls of
    [db.py] are made from the empty store, no two rows of [personal] have
    the same legajo. *)
Theorem personal_legajo_unique :
  forall calls,
    NoDup (map Persona.legajo (Db.personal (run Db.empty calls))).
Proof.
  intros calls.
  assert (H : forall db, NoDup (map Persona.legajo (Db.personal db)) ->
                NoDup (map Persona.legajo (Db.personal (run db calls)))).
  { induction calls as [|c calls IH]; intros db Hdb; simpl; [exact Hdb|].
    apply IH, personal_exec_unique, Hdb. }
  apply H. constructor.
Qed.

End PersonalMore.

(** ** Grid to items and back *)

Section Reload.

Implicit Types (r : GridRow.t) (df : list GridRow.t) (it : Item.t).

Lemma saved_value x :
  (0 <? x)%float = true ->
  (0 + Py.float_or_zero (Py.float_or_zero x))%float = x.
Proof.
  intros H. rewrite !(proj2 (float_or_zero_pos x) H).
  apply float_add_zero_l, float_pos_nonzero, H.
Qed.

Lemma row_comentario_truthy r c :
  App.row_comentario r = Some c -> String.eqb c "" = false.
Proof.
  unfold App.row_comentario.
  destruct (String.eqb (Py.strip _) "") eqn:E; [discriminate|].
  intros H. inversion H; subst. exact E.
Qed.

Lemma day_step_comentario (d : App.Day) it :
  App.comentario (App.day_step d it)
  = if App.comentario_truthy (Item.comentario it)
       && String.eqb (App.comentario d) ""
    then match Item.comentario it with Some c => c | None => "" end
    else App.comentario d.
Proof.
  unfold App.day_step.
  destruct (Item.tipo it); simpl;
    destruct (App.comentario_truthy (Item.comentario it) && _); reflexivity.
Qed.

(** The comment the per-day loop ends with when every item of the day
    carries the same comment [oc]. *)
Lemma day_fold_comentario (oc : option string) lst : forall (d : App.Day),
  App.comentario_truthy oc = match oc with Some _ => true | None => false end ->
  Forall (fun it => Item.comentario it = oc) lst ->
  App.comentario d = "" ->
  App.comentario (fold_left App.day_step lst d)
  = match lst with
    | [] => ""
    | _ => match oc with Some c => c | None => "" end
    end.
Proof.
  intros d Hoc Hall Hd.
  assert (G : forall l (e : App.Day),
             Forall (fun it => Item.comentario it = oc) l ->
             App.comentario e = match oc with Some c => c | None => "" end ->
             App.comentario (fold_left App.day_step l e)
             = match oc with Some c => c | None => "" end).
  { induction l as [|it l IH]; intros e Hl He; simpl; [exact He|].
    apply Forall_cons_iff in Hl. destruct Hl as [Hx Hl'].
    apply IH; [exact Hl'|].
    rewrite day_step_comentario, Hx, He.
    destruct (App.comentario_truthy oc && _); reflexivity. }
  destruct lst as [|it lst]; [exact Hd|].
  apply Forall_cons_iff in Hall. destruct Hall as [Hx Hl'].
  simpl. apply G; [exact Hl'|].
  rewrite day_step_comentario, Hd, String.eqb_refl, andb_true_r, Hx, Hoc.
  destruct oc; reflexivity.
Qed.

Lemma row_items_cells legajo r :
  map Db.item_params (App.row_items legajo r)
  = cell_rows (GridRow.G r)
      (Item.mk legajo (GridRow.Fecha r) G (Some "1") None (App.row_comentario r))
    ++ cell_rows (GridRow.F r)
         (Item.mk legajo (GridRow.Fecha r) F (Some "1") None (App.row_comentario r))
    ++ cell_rows (GridRow.D r)
         (Item.mk legajo (GridRow.Fecha r) D (Some "1") None (App.row_comentario r))
    ++ cell_rows (GridRow.HO r)
         (Item.mk legajo (GridRow.Fecha r) HO (Some "1") None (App.row_comentario r))
    ++ cell_rows (0 <? GridRow.HV r)%float
         (Item.mk legajo (GridRow.Fecha r) HV None
            (Some (Py.float_or_zero (GridRow.HV r))) (App.row_comentario r))
    ++ cell_rows (0 <? GridRow.HE r)%float
         (Item.mk legajo (GridRow.Fecha r) HE None
            (Some (Py.float_or_zero (GridRow.HE r))) (App.row_comentario r)).
Proof.
  unfold App.row_items, cell_rows.
  rewrite (proj1 (float_or_zero_pos (GridRow.HV r))),
          (proj1 (float_or_zero_pos (GridRow.HE r))).
  cbn [App.TIPOS_DIA flat_map App.row_flag].
  rewrite app_nil_r, !map_app, <- !app_assoc. reflexivity.
Qed.

Lemma existsb_cell t b it :
  existsb (is_tipo t) (cell_rows b it) = b && Tipo_eqb (Item.tipo it) t.
Proof. destruct b; simpl; [apply orb_false_r | reflexivity]. Qed.

Lemma filter_cell t b it :
  filter (is_tipo t) (cell_rows b it)
  = cell_rows (b && Tipo_eqb (Item.tipo it) t) it.
Proof.
  destruct b; simpl; [|reflexivity].
  unfold is_tipo; simpl. destruct (Tipo_eqb (Item.tipo it) t); reflexivity.
Qed.

Lemma sum_cell b legajo f t x c :
  fold_left add_valor
    (cell_rows b (Item.mk legajo f t None (Some (Py.float_or_zero x)) c))
    0%float
  = if b then (0 + Py.float_or_zero (Py.float_or_zero x))%float else 0%float.
Proof. destruct b; reflexivity. Qed.

(** The per-day loop on the rows a frame row was stored as. *)
Lemma day_of_saved_row legajo r :
  fold_left App.day_step (map Db.item_params (App.row_items legajo r))
    App.day_init
  = App.mk_day (GridRow.G r) (GridRow.F r) (GridRow.D r) (GridRow.HO r)
      (if (0 <? GridRow.HV r)%float then GridRow.HV r else 0%float)
      (if (0 <? GridRow.HE r)%float then GridRow.HE r else 0%float)
      (if emits r
       then match App.row_comentario r with Some c => c | None => "" end
       else "").
Proof.
  pose proof (day_fold (map Db.item_params (App.row_items legajo r))
                App.day_init) as H.
  pose proof (@day_fold_comentario (App.row_comentario r)
                (map Db.item_params (App.row_items legajo r)) App.day_init)
    as Hc.
  cbv zeta in H. destruct H as (HG & HF & HD & HHO & HHV & HHE).
  assert (C : App.comentario
                (fold_left App.day_step
                   (map Db.item_params (App.row_items legajo r)) App.day_init)
              = if emits r
                then match App.row_comentario r with Some c => c | None => "" end
                else "").
  { rewrite Hc.
    - rewrite row_items_cells. unfold emits, cell_rows.
      destruct (GridRow.G r), (GridRow.F r), (GridRow.D r), (GridRow.HO r),
        (0 <? GridRow.HV r)%float, (0 <? GridRow.HE r)%float; reflexivity.
    - pose proof (@row_comentario_truthy r) as T.
      destruct (App.row_comentario r) as [c|]; [|reflexivity].
      simpl. rewrite (T c eq_refl). reflexivity.
    - apply Forall_forall. intros it Hit.
      apply in_map_iff in Hit. destruct Hit as [it0 [<- Hit0]].
      apply in_row_items in Hit0.
      destruct Hit0 as [[t [_ [_ ->]]]|[[_ ->]|[_ ->]]]; reflexivity.
    - reflexivity. }
  remember (fold_left App.day_step
              (map Db.item_params (App.row_items legajo r)) App.day_init)
    as dd eqn:Edd.
  clear Edd Hc.
  rewrite row_items_cells in HG, HF, HD, HHO, HHV, HHE.
  rewrite !existsb_app, !existsb_cell in HG, HF, HD, HHO.
  rewrite !filter_app, !filter_cell in HHV, HHE.
  cbn [Item.tipo Tipo_eqb App.day_init App.flag_G App.flag_F App.flag_D
       App.flag_HO App.hv App.he] in HG, HF, HD, HHO, HHV, HHE.
  rewrite ?andb_true_r, ?andb_false_r in HG, HF, HD, HHO, HHV, HHE.
  cbn [orb] in HG, HF, HD, HHO.
  rewrite ?orb_false_r in HG, HF, HD, HHO.
  assert (Z : forall it, cell_rows false it = []) by reflexivity.
  rewrite !Z in HHV, HHE. cbn [app] in HHV, HHE.
  rewrite app_nil_r in HHV.
  rewrite sum_cell in HHV. rewrite sum_cell in HHE.
  destruct dd as [g f d ho hv he com].
  simpl in *. subst.
  f_equal.
  - destruct (0 <? GridRow.HV r)%float eqn:L; [apply saved_value, L | reflexivity].
  - destruct (0 <? GridRow.HE r)%float eqn:L; [apply saved_value, L | reflexivity].
Qed.

(** The rows stored for a date of a frame whose dates are all different
    and carry no whitespace: those of the frame's row of that date. *)
Lemma stored_on_date legajo df : forall r,
  NoDup (map GridRow.Fecha df) -> fechas_stripped df -> In r df ->
  filter (fun it => String.eqb (Item.fecha it) (GridRow.Fecha r))
    (map Db.item_params (App.month_df_items legajo df))
  = map Db.item_params (App.row_items legajo r).
Proof.
  unfold App.month_df_items.
  assert (Hrow : forall r' f,
             Py.strip (GridRow.Fecha r') = GridRow.Fecha r' ->
             filter (fun it => String.eqb (Item.fecha it) f)
               (map Db.item_params (App.row_items legajo r'))
             = if String.eqb (GridRow.Fecha r') f
               then map Db.item_params (App.row_items legajo r') else []).
  { intros r' f Hs.
    destruct (String.eqb (GridRow.Fecha r') f) eqn:E.
    - apply forallb_filter_id. apply forallb_forall. intros it Hit.
      apply in_map_iff in Hit. destruct Hit as [it0 [<- Hit0]].
      apply row_items_legajo in Hit0. simpl. rewrite (proj2 Hit0), Hs. exact E.
    - apply filter_none. apply forallb_forall. intros it Hit.
      apply in_map_iff in Hit. destruct Hit as [it0 [<- Hit0]].
      apply row_items_legajo in Hit0. simpl. rewrite (proj2 Hit0), Hs, E.
      reflexivity. }
  induction df as [|r' df IH]; intros r Hnd Hs Hin; [destruct Hin|].
  inversion Hnd as [|f fs Hf Hnd']; subst.
  inversion Hs as [|x xs Hs1 Hs']; subst.
  simpl. rewrite map_app, filter_app, Hrow by exact Hs1.
  destruct Hin as [->|Hin].
  - rewrite String.eqb_refl.
    rewrite (filter_none _ (map Db.item_params (flat_map _ df)));
      [apply app_nil_r|].
    apply forallb_forall. intros it Hit.
    apply in_map_iff in Hit. destruct Hit as [it0 [<- Hit0]].
    apply in_flat_map in Hit0. destruct Hit0 as [r2 [Hr2 Hit0]].
    apply row_items_legajo in Hit0. simpl. rewrite (proj2 Hit0).
    rewrite Forall_forall in Hs'. rewrite (Hs' r2 Hr2).
    apply negb_true_iff, String.eqb_neq. intros E. apply Hf.
    rewrite <- E. apply in_map, Hr2.
  - assert (E : String.eqb (GridRow.Fecha r') (GridRow.Fecha r) = false).
    { apply String.eqb_neq. intros E. apply Hf. rewrite E.
      apply in_map, Hin. }
    rewrite E. simpl. apply IH; assumption.
Qed.

Lemma filled_saved legajo df r :
  NoDup (map GridRow.Fecha df) -> fechas_stripped df -> In r df ->
  filled_row (map Db.item_params (App.month_df_items legajo df)) (GridRow.Fecha r)
  = saved_row r.
Proof.
  intros Hnd Hs Hin. unfold filled_row, App.fill_row, blank.
  cbn [GridRow.Fecha]. rewrite by_date_get_group.
  rewrite (@stored_on_date legajo df r Hnd Hs Hin), day_of_saved_row.
  reflexivity.
Qed.

(** X11.  What is saved is what is shown again: for a year of the
    calendar and a month from 1 to 12, the frame built from the rows a
    frame of that month was stored as has, row by row, the same flags, the
    numbers that were above zero (zero otherwise), and the stripped
    comment when the row gave at least one item; the comment of a row with
    no flag and no number above zero is not kept. *)
Theorem saved_grid_reloads :
  forall legajo y m df,
    (1 <= y <= 9999)%Z -> (1 <= m <= 12)%Z ->
    map GridRow.Fecha df = month_fechas y m ->
    App.items_to_month_df
      (map Db.item_params (App.month_df_items legajo df)) y m
    = Ok (map saved_row df).
Proof.
  intros legajo y m df Hy Hm Hf.
  rewrite items_to_month_df_ok by assumption. f_equal.
  rewrite <- Hf, map_map.
  assert (Hnd : NoDup (map GridRow.Fecha df))
    by (rewrite Hf; apply NoDup_month_fechas).
  pose proof (@month_fechas_stripped y m df Hf) as Hs.
  apply map_ext_in. intros r Hr. apply filled_saved; assumption.
Qed.

End Reload.

(** ** Totals, bounds and periods *)

Section TotalsAndBounds.

Variable series_sum : list float -> float.

Local Open Scope Z_scope.

Lemma count_filled t items_rows fechas :
  In t App.TIPOS_DIA ->
  App.count_true (map (App.row_flag t) (map (filled_row items_rows) fechas))
  = List.length (filter (fun f => existsb (on_day t f) items_rows) fechas).
Proof.
  intros Ht. unfold App.count_true.
  induction fechas as [|f fechas IH]; simpl; [reflexivity|].
  rewrite (proj1 (proj2 (filled_row_cells items_rows f)) t Ht).
  destruct (existsb (on_day t f) items_rows); simpl; rewrite IH; reflexivity.
Qed.

Lemma length_filter_le {A : Type} (f : A -> bool) (l : list A) :
  (List.length (filter f l) <= List.length l)%nat.
Proof.
  induction l as [|x l IH]; simpl; [lia|]. destruct (f x); simpl; lia.
Qed.

(** X12.  The totals of the frame built from a list of items: each day
    count is the number of dates of the month that have an item of the
    kind, however many items of the kind a date has, and is at most the
    number of days of the month; each hours total is the pandas sum of the
    day sums, a NaN day sum counted as zero. *)
Theorem compute_totals_of_items :
  forall items_rows y m,
    1 <= y <= 9999 -> 1 <= m <= 12 ->
    exists df,
      App.items_to_month_df items_rows y m = Ok df
      /\ App.tot_G (App.compute_totals series_sum df) = days_with G items_rows y m
      /\ App.tot_F (App.compute_totals series_sum df) = days_with F items_rows y m
      /\ App.tot_D (App.compute_totals series_sum df) = days_with D items_rows y m
      /\ App.tot_HO (App.compute_totals series_sum df) = days_with HO items_rows y m
      /\ (forall t, Z.of_nat (days_with t items_rows y m) <= days_in_month y m)
      /\ App.tot_HV (App.compute_totals series_sum df)
         = series_sum (map (fun f => App.fillna_zero (total HV f items_rows))
                         (month_fechas y m))
      /\ App.tot_HE (App.compute_totals series_sum df)
         = series_sum (map (fun f => App.fillna_zero (total HE f items_rows))
                         (month_fechas y m)).
Proof.
  intros items_rows y m Hy Hm.
  exists (map (filled_row items_rows) (month_fechas y m)).
  split; [apply items_to_month_df_ok; assumption|].
  unfold App.compute_totals, days_with; simpl.
  split; [apply count_filled; simpl; auto|].
  split; [apply count_filled; simpl; auto|].
  split; [apply count_filled; simpl; auto|].
  split; [apply count_filled; simpl; auto|].
  split.
  - intros t.
    pose proof (length_filter_le (fun f => existsb (on_day t f) items_rows)
                  (month_fechas y m)) as L.
    unfold month_fechas in L at 2. rewrite length_map, length_range in L.
    pose proof (days_in_month_bounds y m). lia.
  - split; f_equal; rewrite map_map; apply map_ext; intros f;
      f_equal; apply filled_row_cells.
Qed.

(** X13.  The frame of a month that is no month: for a month outside 1 to
    12, [month_dates], [build_month_df] and [items_to_month_df] raise
    [IllegalMonthError] of that month, whatever the year and the items;
    for a month from 1 to 12 and a year outside 1 to 9999 they raise
    the error of [date] on the year. *)
Theorem month_out_of_range_raises :
  forall items_rows y m,
    (~ 1 <= m <= 12 ->
     App.month_dates y m = Raise (IllegalMonthError m)
     /\ App.build_month_df y m = Raise (IllegalMonthError m)
     /\ App.items_to_month_df items_rows y m = Raise (IllegalMonthError m))
    /\ (1 <= m <= 12 -> ~ 1 <= y <= 9999 ->
        App.month_dates y m = Raise (YearOutOfRange y)
        /\ App.build_month_df y m = Raise (YearOutOfRange y)
        /\ App.items_to_month_df items_rows y m = Raise (YearOutOfRange y)).
Proof.
  intros items_rows y m. split.
  - intros Hm.
    assert (E : Py.monthrange_ndays y m = Raise (IllegalMonthError m)).
    { unfold Py.monthrange_ndays.
      destruct (Z.leb_spec 1 m); destruct (Z.leb_spec m 12);
        simpl; try reflexivity; lia. }
    unfold App.items_to_month_df, App.build_month_df, App.month_dates,
      App.month_bounds. rewrite E. repeat split.
  - intros Hm Hy.
    assert (E : Py.date_new y m 1 = Raise (YearOutOfRange y)).
    { unfold Py.date_new.
      destruct (Z.leb_spec 1 y); destruct (Z.leb_spec y 9999);
        simpl; try reflexivity; lia. }
    unfold App.items_to_month_df, App.build_month_df, App.month_dates,
      App.month_bounds.
    rewrite monthrange_days_in_month by exact Hm. simpl. rewrite E.
    repeat split.
Qed.

End TotalsAndBounds.

(** ** Periods *)

Section Periods.

Local Open Scope Z_scope.

Lemma format_year_decodes y :
  1 <= y <= 9999 ->
  decode_digits (Py.format_0d 4 y) 0 = y
  /\ String.length (Py.format_0d 4 y) = 4%nat.
Proof.
  intros Hy.
  assert (C : forallb
                (fun a => (decode_digits (Py.format_0d 4 a) 0 =? a)
                          && Nat.eqb (String.length (Py.format_0d 4 a)) 4)
                (App.range 1 10000) = true) by (vm_compute; reflexivity).
  rewrite forallb_forall in C.
  specialize (C y (proj2 (in_range 1 10000 y) ltac:(lia))).
  apply andb_true_iff in C. destruct C as [C1 C2].
  apply Z.eqb_eq in C1. apply Nat.eqb_eq in C2. auto.
Qed.

Lemma format_month_decodes m :
  1 <= m <= 12 ->
  decode_digits (Py.format_0d 2 m) 0 = m
  /\ String.length (Py.format_0d 2 m) = 2%nat.
Proof.
  intros Hm.
  assert (C : forallb
                (fun a => (decode_digits (Py.format_0d 2 a) 0 =? a)
                          && Nat.eqb (String.length (Py.format_0d 2 a)) 2)
                (App.range 1 13) = true) by (vm_compute; reflexivity).
  rewrite forallb_forall in C.
  specialize (C m (proj2 (in_range 1 13 m) ltac:(lia))).
  apply andb_true_iff in C. destruct C as [C1 C2].
  apply Z.eqb_eq in C1. apply Nat.eqb_eq in C2. auto.
Qed.

Lemma append_same_length (a a' b b' : string) :
  String.length a = String.length a' ->
  (a ++ b = a' ++ b')%string -> a = a' /\ b = b'.
Proof.
  revert a'. induction a as [|c a IH]; intros [|c' a'] Hl E;
    simpl in *; try discriminate; [auto|].
  inversion E; subst. destruct (IH a') as [-> ->]; auto.
Qed.

Lemma length_append (a b : string) :
  String.length (a ++ b) = (String.length a + String.length b)%nat.
Proof. induction a as [|c a IH]; simpl; [reflexivity | rewrite IH; reflexivity]. Qed.

(** X14.  The period of a year of the calendar and a month from 1 to 12
    is a text of six characters that [strip] leaves as it is, and two
    different months never have the same period. *)
Theorem yyyymm_from_year_month_injective :
  forall y m y' m',
    1 <= y <= 9999 -> 1 <= m <= 12 ->
    1 <= y' <= 9999 -> 1 <= m' <= 12 ->
    String.length (App.yyyymm_from_year_month y m) = 6%nat
    /\ Py.strip (App.yyyymm_from_year_month y m) = App.yyyymm_from_year_month y m
    /\ (App.yyyymm_from_year_month y m = App.yyyymm_from_year_month y' m' ->
        y = y' /\ m = m').
Proof.
  intros y m y' m' Hy Hm Hy' Hm'.
  destruct (@format_year_decodes y Hy) as [Dy Ly].
  destruct (@format_year_decodes y' Hy') as [Dy' Ly'].
  destruct (@format_month_decodes m Hm) as [Dm Lm].
  destruct (@format_month_decodes m' Hm') as [Dm' _].
  unfold App.yyyymm_from_year_month. split; [|split].
  - rewrite length_append, Ly, Lm. reflexivity.
  - apply strip_graphic. rewrite all_graphic_app, !all_graphic_format.
    reflexivity.
  - intros E. apply append_same_length in E; [|congruence].
    destruct E as [E1 E2]. split; congruence.
Qed.

End Periods.

(** ** Login and roles *)

Section Login.

Variable re_sub_nondigits : string -> string.

Lemma string_of_list_ascii_app (a b : list ascii) :
  string_of_list_ascii (a ++ b)
  = (string_of_list_ascii a ++ string_of_list_ascii b)%string.
Proof. induction a as [|c a IH]; simpl; [reflexivity | rewrite IH; reflexivity]. Qed.

Lemma take_back_prefix l : forall n, exists rest, l = Py.take_back l n ++ rest.
Proof.
  induction l as [|c l IH]; intros n; [exists []; reflexivity|].
  destruct n as [|k]; simpl; [exists (c :: l); reflexivity|].
  destruct (Py.is_continuation c).
  - destruct (IH (S k)) as [rest E]. exists rest. simpl. f_equal. exact E.
  - destruct (IH k) as [rest E]. exists rest. simpl. f_equal. exact E.
Qed.

(** [s[-n:]] is an end of [s]. *)
Lemma last_chars_suffix n s :
  exists before, s = (before ++ Py.last_chars n s)%string.
Proof.
  destruct n as [|k]; [exists ""; reflexivity|].
  unfold Py.last_chars.
  destruct (take_back_prefix (rev (list_ascii_of_string s)) (S k)) as [rest E].
  exists (string_of_list_ascii (rev rest)).
  rewrite <- string_of_list_ascii_app, <- rev_app_distr, <- E, rev_involutive.
  symmetry. apply string_of_list_ascii_of_string.
Qed.

Lemma take_back_all (l : list ascii) (c : ascii) :
  Py.is_continuation c = false ->
  Py.take_back (l ++ [c])
    (List.length (filter (fun c => negb (Py.is_continuation c)) l) + 1)
  = l ++ [c].
Proof.
  intros Hc. induction l as [|c0 l IH].
  - simpl. rewrite Hc. reflexivity.
  - cbn [app filter]. destruct (Py.is_continuation c0) eqn:E0;
      cbn [negb List.length].
    + rewrite Nat.add_1_r in *. cbn [Py.take_back]. rewrite E0, IH.
      reflexivity.
    + cbn [Nat.add Py.take_back]. rewrite E0, IH. reflexivity.
Qed.

(** The last [len(s)] code points of a text that begins at a code point
    are the text. *)
Lemma last_chars_all (s : string) :
  starts_code_point s = true -> Py.last_chars (Py.len s) s = s.
Proof.
  intros H. unfold Py.last_chars, Py.len.
  destruct (List.length _) eqn:E; [reflexivity|]. rewrite <- E. clear E.
  destruct s as [|c0 s0]; [reflexivity|].
  simpl in H. apply negb_true_iff in H.
  cbn [list_ascii_of_string rev filter]. rewrite H. cbn [negb List.length].
  rewrite <- (length_rev (filter _ _)), <- filter_rev, <- Nat.add_1_r.
  rewrite take_back_all by exact H. rewrite rev_app_distr, rev_involutive.
  simpl. f_equal. apply string_of_list_ascii_of_string.
Qed.

(** X15.  A login that succeeds is for a stored person: the legajo typed
    is not blank, the user returned is made from the row of that legajo,
    the digits typed are not empty and end the digits of the stored CUIL,
    and with more than four digits they are all of them.  One that fails
    returns no user and a message. *)
Theorem verify_login_sound :
  forall db legajo_input cuil_input,
    (forall user msg,
        Auth.verify_login re_sub_nondigits db legajo_input cuil_input
        = (true, user, msg) ->
        exists person before,
          Py.strip legajo_input <> ""
          /\ Db.get_person_by_legajo db legajo_input = Some person
          /\ user = Some (user_of person)
          /\ msg = ""
          /\ Auth.normalize_digits re_sub_nondigits cuil_input <> ""
          /\ Auth.normalize_digits re_sub_nondigits (Persona.cuil person)
             = (before ++ Auth.normalize_digits re_sub_nondigits cuil_input)%string
          /\ (4 < Py.len (Auth.normalize_digits re_sub_nondigits cuil_input) ->
              before = ""))
    /\ (forall user msg,
          Auth.verify_login re_sub_nondigits db legajo_input cuil_input
          = (false, user, msg) ->
          user = None /\ msg <> "").
Proof.
  intros db legajo_input cuil_input.
  assert (Hget : Db.get_person_by_legajo db (Py.strip legajo_input)
                 = Db.get_person_by_legajo db legajo_input)
    by (unfold Db.get_person_by_legajo; rewrite strip_idem; reflexivity).
  unfold Auth.verify_login. rewrite Hget.
  destruct (String.eqb_spec (Py.strip legajo_input) "") as [El|El].
  { split; intros user msg H; inversion H; subst.
    split; [reflexivity | discriminate]. }
  destruct (Db.get_person_by_legajo db legajo_input) as [person|].
  2:{ split; intros user msg H; inversion H; subst.
      split; [reflexivity | discriminate]. }
  set (cuil_db := Auth.normalize_digits re_sub_nondigits (Persona.cuil person)).
  set (cuil_in := Auth.normalize_digits re_sub_nondigits cuil_input).
  destruct (String.eqb_spec cuil_in "") as [Ei|Ei].
  { split; intros user msg H; inversion H; subst.
    split; [reflexivity | discriminate]. }
  destruct (Nat.leb_spec (Py.len cuil_in) 4) as [L|L].
  - destruct (String.eqb_spec (Py.last_chars (Py.len cuil_in) cuil_db) cuil_in)
      as [E|E]; simpl.
    + split; intros user msg H; inversion H; subst.
      destruct (last_chars_suffix (Py.len cuil_in) cuil_db) as [before Eb].
      rewrite E in Eb.
      exists person, before. repeat split; auto. intros; lia.
    + split; intros user msg H; inversion H; subst.
      split; [reflexivity | discriminate].
  - destruct (String.eqb_spec cuil_db cuil_in) as [E|E]; simpl.
    + split; intros user msg H; inversion H; subst.
      exists person, "". repeat split; auto.
    + split; intros user msg H; inversion H; subst.
      split; [reflexivity | discriminate].
Qed.

(** X16.  A stored person gets in with the stored CUIL, long or short:
    with the legajo typed as stored, surrounding whitespace apart, and
    the CUIL of the row typed as it is, the login succeeds as soon as the
    CUIL has a digit. *)
Theorem verify_login_own_cuil :
  forall db legajo_input person,
    Py.strip legajo_input <> "" ->
    Db.get_person_by_legajo db legajo_input = Some person ->
    Auth.normalize_digits re_sub_nondigits (Persona.cuil person) <> "" ->
    starts_code_point
      (Auth.normalize_digits re_sub_nondigits (Persona.cuil person)) = true ->
    Auth.verify_login re_sub_nondigits db legajo_input (Persona.cuil person)
    = (true, Some (user_of person), "").
Proof.
  intros db legajo_input person Hl Hp Hd Hs.
  assert (Hget : Db.get_person_by_legajo db (Py.strip legajo_input)
                 = Db.get_person_by_legajo db legajo_input)
    by (unfold Db.get_person_by_legajo; rewrite strip_idem; reflexivity).
  unfold Auth.verify_login. rewrite Hget, Hp.
  apply String.eqb_neq in Hl. apply String.eqb_neq in Hd.
  rewrite Hl, Hd, (last_chars_all _ Hs), !String.eqb_refl. simpl.
  destruct (Py.len _ <=? 4)%nat; reflexivity.
Qed.

End Login.

Section Roles.

Lemma insert_by_sorted (x : string) (l : list string) :
  Sorted str_le l -> Sorted str_le (Py.insert_by String.leb x l).
Proof.
  induction l as [|y l IH]; intros Hs; simpl.
  - constructor; constructor.
  - destruct (String.leb x y) eqn:E.
    + constructor; [exact Hs | constructor; exact E].
    + apply Sorted_inv in Hs. destruct Hs as [Hs Hhd].
      constructor; [apply IH; exact Hs|].
      assert (Hyx : str_le y x).
      { destruct (String.leb_total x y) as [H|H]; [congruence | exact H]. }
      destruct l as [|z l]; simpl; [constructor; exact Hyx|].
      destruct (String.leb x z); constructor; [exact Hyx|].
      inversion Hhd; assumption.
Qed.

Lemma sorted_is_sorted (l : list string) : Sorted str_le (Py.sorted l).
Proof.
  unfold Py.sorted. induction l as [|x l IH]; simpl;
    [constructor | apply insert_by_sorted; exact IH].
Qed.

Lemma in_leader_set (db : Db.t) (l : string) :
  In l (Db.leader_set_in_db db)
  <-> exists per, In per (Db.personal db)
                  /\ Persona.leader_legajo per <> ""
                  /\ Py.strip (Persona.leader_legajo per) = l.
Proof.
  unfold Db.leader_set_in_db, Py.sorted.
  rewrite in_sort_by, in_map_iff. split.
  - intros [x [Hx Hin]]. apply nodup_In, filter_In in Hin.
    destruct Hin as [Hin Hne]. apply in_map_iff in Hin.
    destruct Hin as [per [Hper Hin]]. subst x.
    exists per. repeat split; auto.
    apply negb_true_iff, String.eqb_neq in Hne. exact Hne.
  - intros [per [Hin [Hne Hl]]]. exists (Persona.leader_legajo per).
    split; [exact Hl|]. apply nodup_In, filter_In. split.
    + apply in_map. exact Hin.
    + apply negb_true_iff, String.eqb_neq. exact Hne.
Qed.

Lemma resolve_role_lider (u : string) (leaders : list string) :
  Auth.resolve_role u leaders = "lider" <-> In (Py.strip u) leaders.
Proof.
  unfold Auth.resolve_role.
  destruct (existsb (String.eqb (Py.strip u)) leaders) eqn:E.
  - split; [intros _|reflexivity].
    apply existsb_exists in E. destruct E as [x [Hin Hx]].
    apply String.eqb_eq in Hx. subst x. exact Hin.
  - split; [discriminate|]. intros Hin.
    assert (H : existsb (String.eqb (Py.strip u)) leaders = true).
    { apply existsb_exists. exists (Py.strip u). split; [exact Hin|].
      apply String.eqb_refl. }
    congruence.
Qed.

(** X17.  Without the setting [LEADER_LEGAJOS] the leaders are read off
    the master: a user gets the role of leader exactly when some stored
    person names them, surrounding whitespace apart, as their leader, and
    everybody else is an employee. *)
Theorem role_from_master :
  forall db user_legajo,
    (Auth.resolve_role user_legajo (App.resolve_leaders None db) = "lider"
     <-> exists per, In per (Db.personal db)
                     /\ Persona.leader_legajo per <> ""
                     /\ Py.strip (Persona.leader_legajo per)
                        = Py.strip user_legajo)
    /\ (Auth.resolve_role user_legajo (App.resolve_leaders None db) = "lider"
        \/ Auth.resolve_role user_legajo (App.resolve_leaders None db)
           = "empleado").
Proof.
  intros db u. split.
  - rewrite resolve_role_lider. apply in_leader_set.
  - unfold Auth.resolve_role. destruct (existsb _ _); auto.
Qed.

(** X18.  The list of leaders read off the master is in ascending order
    and holds stripped texts only. *)
Theorem leader_set_in_db_sorted :
  forall db,
    Sorted str_le (Db.leader_set_in_db db)
    /\ Forall (fun l => Py.strip l = l) (Db.leader_set_in_db db).
Proof.
  intros db. split.
  - apply sorted_is_sorted.
  - apply Forall_forall. intros l Hl. apply in_leader_set in Hl.
    destruct Hl as [per [_ [_ <-]]]. apply strip_idem.
Qed.

Lemma in_comma_parts (s x : string) :
  In x (App.comma_parts s) -> x <> "" /\ Py.strip x = x.
Proof.
  unfold App.comma_parts. intros H. apply in_map_iff in H.
  destruct H as [y [<- Hy]]. apply filter_In in Hy. destruct Hy as [_ Hy].
  apply negb_true_iff, String.eqb_neq in Hy. split; [exact Hy | apply strip_idem].
Qed.

End Roles.

(** ** The admin page *)

Section AdminPage.

Variable lower : string -> string.
Variable json_dumps : list (string * ExcelIo.value) -> string.

Lemma invalid_fold (leader_set : option (list string)) (rows : list Persona.t) :
  forall acc,
    fold_left (Admin.invalid_step leader_set) rows acc = []
    <-> acc = [] /\ Forall (leader_allowed leader_set) rows.
Proof.
  induction rows as [|r rows IH]; intros acc; simpl.
  - split; [intros ->; split; [reflexivity | constructor] | intros [-> _]; reflexivity].
  - rewrite IH. unfold Admin.invalid_step at 1.
    assert (Hsnoc : forall (x : string * string), acc ++ [x] <> [])
      by (intros x Hx; apply app_eq_nil in Hx; destruct Hx; discriminate).
    destruct (String.eqb_spec (Py.strip (Persona.leader_legajo r)) "") as [E|E].
    { split; [intros [H _]; destruct (Hsnoc _ H)|].
      intros [_ H]. apply Forall_inv in H. destruct H as [H _]. contradiction. }
    destruct leader_set as [set|].
    + destruct (existsb (String.eqb (Py.strip (Persona.leader_legajo r))) set)
        eqn:Ex; simpl.
      * split; intros [Hacc H]; (split; [exact Hacc|]).
        -- constructor; [|exact H]. split; [exact E|].
           intros set' Hset. inversion Hset; subst set'.
           apply existsb_exists in Ex. destruct Ex as [x [Hin Hx]].
           apply String.eqb_eq in Hx. subst x. exact Hin.
        -- apply Forall_inv_tail in H. exact H.
      * split; [intros [H _]; destruct (Hsnoc _ H)|].
        intros [_ H]. apply Forall_inv in H. destruct H as [_ H].
        specialize (H set eq_refl).
        assert (Hex : existsb (String.eqb (Py.strip (Persona.leader_legajo r))) set
                      = true).
        { apply existsb_exists. eexists. split; [exact H | apply String.eqb_refl]. }
        congruence.
    + split; intros [Hacc H]; (split; [exact Hacc|]).
      * constructor; [|exact H]. split; [exact E | discriminate].
      * apply Forall_inv_tail in H. exact H.
Qed.

(** X19.  The import of the admin page is all or nothing.  When every
    record read has a leader that is not blank and, with the setting
    [LEADER_LEGAJOS], in it, the button stores the whole batch and the
    message gives the two counts, and without the button nothing is
    written.  When one record fails the check, nothing is written and the
    error is shown, button or not. *)
Theorem page_admin_all_or_nothing :
  forall leaders_cfg db xls rows warnings,
    ExcelIo.import_maestro_general lower json_dumps xls = Ok (rows, warnings) ->
    (Forall (leader_allowed (Admin.leader_set_of leaders_cfg)) rows ->
     Admin.page_admin lower json_dumps leaders_cfg db xls false = (db, App.nada)
     /\ Admin.page_admin lower json_dumps leaders_cfg db xls true
        = (fst (Db.upsert_personal_rows db rows),
           App.st_success
             ("Import OK. Insertados: "
              ++ Py.decimal
                   (Z.of_nat (fst (snd (Db.upsert_personal_rows db rows))))
              ++ " | Actualizados: "
              ++ Py.decimal
                   (Z.of_nat (snd (snd (Db.upsert_personal_rows db rows)))))))
    /\ (forall r boton,
          In r rows ->
          ~ leader_allowed (Admin.leader_set_of leaders_cfg) r ->
          Admin.page_admin lower json_dumps leaders_cfg db xls boton
          = (db, App.st_error
                   "Hay registros con líder inválido. Corregí el maestro o LEADER_LEGAJOS.")).
Proof.
  intros cfg db xls rows warnings Himp.
  unfold Admin.page_admin. rewrite Himp.
  pose proof (invalid_fold (Admin.leader_set_of cfg) rows []) as Hfold.
  destruct (fold_left (Admin.invalid_step (Admin.leader_set_of cfg)) rows [])
    as [|x inv].
  - split.
    + intros _. split; [reflexivity|].
      destruct (Db.upsert_personal_rows db rows) as [db' [ins upd]]. reflexivity.
    + intros r boton Hin Hbad. exfalso. apply Hbad.
      destruct Hfold as [Hfold _]. destruct (Hfold eq_refl) as [_ Hall].
      rewrite Forall_forall in Hall. apply Hall. exact Hin.
  - split.
    + intros Hall. destruct Hfold as [_ Hfold].
      discriminate (Hfold (conj eq_refl Hall)).
    + intros r boton _ _. reflexivity.
Qed.

(** X20.  With [LEADER_LEGAJOS] given as a text, the check of the import
    and the roles agree: the records let through are those whose leader,
    logged in, would be given the role of leader. *)
Theorem leader_check_agrees_with_roles :
  forall s db r,
    s <> "" ->
    (leader_allowed (Admin.leader_set_of (Some (App.SettingText s))) r
     <-> Auth.resolve_role (Persona.leader_legajo r)
           (App.resolve_leaders (Some (App.SettingText s)) db) = "lider").
Proof.
  intros s db r Hs. rewrite resolve_role_lider.
  unfold Admin.leader_set_of, App.resolve_leaders, App.setting_truthy.
  apply String.eqb_neq in Hs. rewrite Hs. simpl. split.
  - intros [_ H]. apply H. reflexivity.
  - intros H. split.
    + apply in_comma_parts in H. destruct H as [H _]. exact H.
    + intros set Hset. inversion Hset; subst. exact H.
Qed.

Lemma find_app_none {A : Type} (f : A -> bool) (l1 l2 : list A) :
  Forall (fun x => f x = false) l1 -> find f (l1 ++ l2) = find f l2.
Proof.
  induction 1 as [|x l1 Hx _ IH]; simpl; [reflexivity|].
  rewrite Hx. exact IH.
Qed.

(** X21.  The sheet read is the first one named "general", whitespace and
    case apart: the sheets before and after it have no effect on the
    result; a workbook without such a sheet is refused, and the admin page
    shows that error and writes nothing. *)
Theorem import_reads_first_general_sheet :
  forall before,
    Forall (fun s => lower (Py.strip (fst s)) <> "general") before ->
    (forall name df after,
        lower (Py.strip name) = "general" ->
        ExcelIo.import_maestro_general lower json_dumps
          (before ++ (name, df) :: after)
        = ExcelIo.import_maestro_general lower json_dumps [(name, df)])
    /\ ExcelIo.import_maestro_general lower json_dumps before
       = Raise (ValueError "No se encontró la pestaña 'General' en el Excel.")
    /\ (forall leaders_cfg db boton,
          Admin.page_admin lower json_dumps leaders_cfg db before boton
          = (db, App.st_error
                   "Error importando: No se encontró la pestaña 'General' en el Excel.")).
Proof.
  intros before Hb.
  assert (Hb' : Forall (fun s : string * ExcelIo.DataFrame =>
                          String.eqb (lower (Py.strip (fst s))) "general" = false)
                  before).
  { eapply Forall_impl; [|exact Hb]. intros s Hs. apply String.eqb_neq. exact Hs. }
  assert (Hnone : ExcelIo.import_maestro_general lower json_dumps before
                  = Raise (ValueError
                             "No se encontró la pestaña 'General' en el Excel.")).
  { unfold ExcelIo.import_maestro_general.
    rewrite <- (app_nil_r before), (find_app_none _ _ Hb'). reflexivity. }
  split; [|split].
  - intros name df after Hname. unfold ExcelIo.import_maestro_general.
    rewrite (find_app_none _ _ Hb'). simpl. rewrite Hname. reflexivity.
  - exact Hnone.
  - intros cfg db boton. unfold Admin.page_admin. rewrite Hnone. reflexivity.
Qed.

End AdminPage.

(** ** The records of the master *)

Section MasterRecords.

Variable lower : string -> string.
Variable json_dumps : list (string * ExcelIo.value) -> string.









End MasterRecords.

(** ** The setting of the leaders *)

Section LeadersSetting.

Lemma split_not_nil (sep : ascii) (s : string) : Py.split sep s <> [].
Proof.
  destruct s as [|c s]; simpl; [discriminate|].
  destruct (Py.split sep s); [discriminate|].
  destruct (Ascii.eqb c sep); discriminate.
Qed.

Lemma split_no_sep (x : string) :
  has_comma x = false -> Py.split "," x = [x].
Proof.
  unfold has_comma. induction x as [|c x IH]; [reflexivity|].
  cbn [list_ascii_of_string existsb Py.split].
  intros H. apply orb_false_elim in H. destruct H as [Hc Hx].
  rewrite (IH Hx). rewrite Ascii.eqb_sym in Hc. rewrite Hc. reflexivity.
Qed.

Lemma split_app (x rest : string) :
  has_comma x = false ->
  Py.split "," (x ++ String "," rest) = x :: Py.split "," rest.
Proof.
  unfold has_comma. induction x as [|c x IH].
  - intros _. pose proof (@split_not_nil "," rest) as Hne.
    cbn [append Py.split].
    destruct (Py.split "," rest); [contradiction|].
    rewrite Ascii.eqb_refl. reflexivity.
  - cbn [list_ascii_of_string existsb append Py.split].
    intros H. apply orb_false_elim in H. destruct H as [Hc Hx].
    rewrite (IH Hx). rewrite Ascii.eqb_sym in Hc. rewrite Hc. reflexivity.
Qed.

Lemma split_join (l : list string) :
  Forall (fun x => has_comma x = false) l ->
  Py.split "," (Py.join "," l) = match l with [] => [""] | _ => l end.
Proof.
  induction l as [|p l IH]; intros H; [reflexivity|].
  inversion H as [|? ? Hp Hl]; subst.
  destruct l as [|q l]; [apply (@split_no_sep p); exact Hp|].
  change (Py.join "," (p :: q :: l))
    with (p ++ String "," (Py.join "," (q :: l)))%string.
  rewrite (@split_app p _ Hp), (IH Hl). reflexivity.
Qed.

(** X24.  The setting [LEADER_LEGAJOS] written as legajos with commas
    between them gives these legajos back, in order, stripped, the blank
    ones dropped, and the master is not looked at. *)
Theorem resolve_leaders_of_text :
  forall l db,
    Forall (fun x => has_comma x = false) l ->
    Py.join "," l <> "" ->
    App.resolve_leaders (Some (App.SettingText (Py.join "," l))) db
    = map Py.strip (filter (fun x => negb (String.eqb (Py.strip x) "")) l).
Proof.
  intros l db Hl Hne. unfold App.resolve_leaders, App.setting_truthy.
  apply String.eqb_neq in Hne. rewrite Hne. simpl.
  unfold App.comma_parts. rewrite (@split_join l Hl).
  destruct l; reflexivity.
Qed.

End LeadersSetting.

(** ** The further properties on the sample data *)

Lemma page_empleado_locked_witness :
  App.page_empleado "2024-03-05 08:00:00" ej_db "5479" 2024 2 ej_grid
    App.Guardar_borrador
  = (ej_db, App.st_caption "Edición deshabilitada por estado del parte.").
Proof.
  exact (@page_empleado_locked "2024-03-05 08:00:00" ej_db "5479" 2024%Z 2%Z
           ej_grid App.Guardar_borrador ej_parte_enviado eq_refl
           (or_introl eq_refl)).
Defined.

Lemma enviar_a_aprobacion_locks_witness :
  exists db1,
    App.page_empleado "2024-03-05 08:00:00" ej_db "5478" 2024 2 ej_grid
      App.Enviar_a_aprobacion
    = (db1, App.st_success "Enviado a aprobación. Queda bloqueado.")
    /\ Db.get_parte db1 "5478" (App.yyyymm_from_year_month 2024 2)
       = Some (Parte.mk "5478" "202402" ENVIADO (Some "2024-03-05 08:00:00")
                 None (Some "5483") None)
    /\ App.page_empleado "2024-03-06 10:00:00" db1 "5478" 2024 2 ej_grid
         App.Guardar_borrador
       = (db1, App.st_caption "Edición deshabilitada por estado del parte.").
Proof.
  destruct (@enviar_a_aprobacion_locks "2024-03-05 08:00:00" ej_db "5478"
              2024%Z 2%Z ej_grid ej_parte_rechazado eq_refl eq_refl
              ej_grid_stripped)
    as (db1 & H1 & H2 & _ & H4).
  exists db1. split; [exact H1|]. split; [exact H2 | apply H4].
Defined.

Lemma aprobar_sets_aprobado_witness :
  exists db1,
    App.page_lider "2024-03-05 08:00:00" ej_db "5483" "5479" "202402" App.Aprobar
    = (db1, App.st_success "Aprobado.")
    /\ Db.get_parte db1 "5479" "202402"
       = Some (Parte.mk "5479" "202402" APROBADO (Some "2024-03-02 09:30:00")
                 (Some "2024-03-05 08:00:00") (Some "5483") None)
    /\ Db.items db1 = Db.items ej_db.
Proof.
  destruct (@aprobar_sets_aprobado "2024-03-05 08:00:00" ej_db "5483" "5479"
              "202402" ej_parte_enviado eq_refl)
    as (db1 & H1 & H2 & H3 & _).
  exists db1. split; [exact H1|]. split; [exact H2 | exact H3].
Defined.

Lemma rechazo_then_enviar_witness :
  Db.get_parte
    (fst (App.page_empleado "2024-03-06 10:00:00"
            (fst (App.page_lider "2024-03-05 08:00:00" ej_db "5483" "5479"
                    (App.yyyymm_from_year_month 2024 2)
                    (App.Confirmar_rechazo "falta el viernes")))
            "5479" 2024 2 ej_grid App.Enviar_a_aprobacion))
    "5479" (App.yyyymm_from_year_month 2024 2)
  = Some (Parte.mk "5479" "202402" ENVIADO (Some "2024-03-06 10:00:00") None
            (Some "5483") None).
Proof.
  apply (@rechazo_then_enviar "2024-03-05 08:00:00" "2024-03-06 10:00:00" ej_db
           "5483" "5479" 2024%Z 2%Z "falta el viernes" ej_grid
           ej_parte_enviado eq_refl).
  discriminate.
Defined.

Lemma enviar_reaches_leader_witness :
  In (Db.mk_pendiente "5478" "Ana" "202402" ENVIADO (Some "2024-03-05 08:00:00"))
     (Db.list_pendientes_para_lider String.leb
        (fst (App.page_empleado "2024-03-05 08:00:00" ej_db_personal "5478"
                2024 2 ej_grid App.Enviar_a_aprobacion))
        " 5483 ").
Proof.
  exact (@enviar_reaches_leader String.leb "2024-03-05 08:00:00" ej_db_personal
           "5478" 2024%Z 2%Z ej_grid ej_parte_rechazado
           (ej_persona "5478" "Ana") " 5483 " eq_refl eq_refl eq_refl eq_refl).
Defined.

Lemma decision_leaves_pending_list_witness :
  In (Db.mk_pendiente "5479" "Beto" "202402" ENVIADO (Some "2024-03-02 09:30:00"))
     (Db.list_pendientes_para_lider String.leb
        (fst (App.page_lider "2024-03-05 08:00:00" ej_db_personal "5483"
                "5479" "202402" App.Aprobar))
        "5483")
  <-> In (Db.mk_pendiente "5479" "Beto" "202402" ENVIADO
            (Some "2024-03-02 09:30:00"))
         (Db.list_pendientes_para_lider String.leb ej_db_personal "5483")
      /\ ("5479", "202402") <> (Py.strip "5479", Py.strip "202402").
Proof.
  exact (@decision_leaves_pending_list String.leb "2024-03-05 08:00:00"
           ej_db_personal "5483" "5479" "202402" App.Aprobar
           (or_introl eq_refl) "5483"
           (Db.mk_pendiente "5479" "Beto" "202402" ENVIADO
              (Some "2024-03-02 09:30:00"))).
Defined.

Lemma saved_grid_reloads_witness :
  App.items_to_month_df
    (map Db.item_params (App.month_df_items "5478" ej_grid)) 2024 2
  = Ok (map saved_row ej_grid).
Proof.
  apply (@saved_grid_reloads "5478" 2024%Z 2%Z ej_grid); try lia. reflexivity.
Defined.

Lemma compute_totals_of_items_witness :
  exists df,
    App.items_to_month_df ej_items_5478 2024 2 = Ok df
    /\ App.tot_G (App.compute_totals ej_series_sum df)
       = days_with G ej_items_5478 2024 2
    /\ App.tot_HV (App.compute_totals ej_series_sum df)
       = ej_series_sum
           (map (fun f => App.fillna_zero (total HV f ej_items_5478))
              (month_fechas 2024 2)).
Proof.
  destruct (@compute_totals_of_items ej_series_sum ej_items_5478 2024%Z 2%Z
              ltac:(lia) ltac:(lia))
    as (df & H1 & H2 & _ & _ & _ & _ & H7 & _).
  exists df. split; [exact H1|]. split; [exact H2 | exact H7].
Defined.

Lemma yyyymm_from_year_month_injective_witness :
  String.length (App.yyyymm_from_year_month 2024 2) = 6
  /\ Py.strip (App.yyyymm_from_year_month 2024 2)
     = App.yyyymm_from_year_month 2024 2
  /\ (App.yyyymm_from_year_month 2024 2 = App.yyyymm_from_year_month 2023 12 ->
      2024%Z = 2023%Z /\ 2%Z = 12%Z).
Proof.
  apply (@yyyymm_from_year_month_injective 2024%Z 2%Z 2023%Z 12%Z); lia.
Defined.

Lemma verify_login_own_cuil_witness :
  Auth.verify_login ascii_digits ej_db_personal " 5478 " "20359612835"
  = (true, Some (Auth.mk_user "5478" "Ana" "5483"), "").
Proof.
  apply (@verify_login_own_cuil ascii_digits ej_db_personal " 5478 "
           (ej_persona "5478" "Ana")).
  - discriminate.
  - reflexivity.
  - discriminate.
  - reflexivity.
Defined.

Lemma page_admin_all_or_nothing_witness :
  Admin.page_admin lower_ascii ej_dumps None ej_db ej_xls true
  = (ej_db, App.st_error
              "Hay registros con líder inválido. Corregí el maestro o LEADER_LEGAJOS.")
  /\ Admin.page_admin lower_ascii ej_dumps None ej_db ej_xls_lideres true
     = (fst (Db.upsert_personal_rows ej_db [ej_ana; ej_carla]),
        App.st_success "Import OK. Insertados: 2 | Actualizados: 0").
Proof.
  split.
  - apply (proj2 (@page_admin_all_or_nothing lower_ascii ej_dumps None ej_db
                    ej_xls [ej_ana; ej_beto]
                    ["Legajo 5479: faltan datos (CUIL/NOMBRE/LÍDER)."] eq_refl)
             ej_beto true).
    + right. left. reflexivity.
    + intros [H _]. apply H. reflexivity.
  - apply (proj1 (@page_admin_all_or_nothing lower_ascii ej_dumps None ej_db
                    ej_xls_lideres [ej_ana; ej_carla] [] eq_refl)).
    repeat constructor; discriminate.
Defined.

Lemma leader_check_agrees_with_roles_witness :
  leader_allowed (Admin.leader_set_of (Some (App.SettingText "5483, 5490")))
    ej_ana
  <-> Auth.resolve_role "5483"
        (App.resolve_leaders (Some (App.SettingText "5483, 5490")) ej_db)
      = "lider".
Proof.
  apply (@leader_check_agrees_with_roles "5483, 5490" ej_db ej_ana).
  discriminate.
Defined.

Lemma import_reads_first_general_sheet_witness :
  ExcelIo.import_maestro_general lower_ascii ej_dumps
    ([("Hoja1", ej_sheet)] ++ (" GENERAL ", ej_sheet_sin_lider) :: [("General", ej_sheet)])
  = ExcelIo.import_maestro_general lower_ascii ej_dumps
      [(" GENERAL ", ej_sheet_sin_lider)]
  /\ ExcelIo.import_maestro_general lower_ascii ej_dumps [("Hoja1", ej_sheet)]
     = Raise (ValueError "No se encontró la pestaña 'General' en el Excel.").
Proof.
  assert (H : Forall (fun s : string * ExcelIo.DataFrame =>
                        lower_ascii (Py.strip (fst s)) <> "general")
                [("Hoja1", ej_sheet)])
    by (repeat constructor; discriminate).
  destruct (@import_reads_first_general_sheet lower_ascii ej_dumps
              [("Hoja1", ej_sheet)] H) as (H1 & H2 & _).
  split; [apply H1; reflexivity | exact H2].
Defined.


Lemma resolve_leaders_of_text_witness :
  App.resolve_leaders (Some (App.SettingText "5483, 5490 , ")) ej_db
  = ["5483"; "5490"].
Proof.
  apply (@resolve_leaders_of_text ["5483"; " 5490 "; " "] ej_db).
  - repeat constructor.
  - discriminate.
Defined.
